(** * Garmin health metrics to Notion sync: a shallow embedding

    The development follows [garmin-health-metrics.py].  The payloads the
    Garmin client returns are JSON documents decoded by Python, so the
    data model is the type [pyval] of decoded JSON values, and every Python
    operation the script applies to a payload ([in], subscripting, [.get],
    [len], [int], truth testing) is given for all of [pyval], raising the
    exception class Python raises.  The two Notion writers, the locator and
    the per-day loop are written in a state-and-exception monad over an
    arbitrary model of the two remote services; every remote call is
    recorded in a trace. *)

From Stdlib Require Import ZArith Floats Ascii String.
From stdpp Require Import base option list gmap strings.

#[local] Set Warnings "-register-all".
#[local] Open Scope string_scope.
#[local] Open Scope Z_scope.

(** ** Decoded JSON values *)

Inductive pyval : Type :=
| PNone
| PBool (b : bool)
| PInt (z : Z)
| PFloat (f : float)
| PStr (s : string)
| PList (l : list pyval)
| PDict (d : gmap string pyval).

(** ** Exceptions *)

(** The subclasses of [Exception] the script can meet.  [ServiceError]
    stands for whatever a remote client raises (transport, HTTP status,
    authentication). *)
Inductive exn : Type :=
| TypeError
| KeyError
| IndexError
| AttributeError
| ValueError
| OverflowError
| ServiceError.

Inductive result (A : Type) : Type :=
| Ok (a : A)
| Raise (e : exn).
Arguments Ok {A} a.
Arguments Raise {A} e.

#[global] Instance result_ret : MRet result := @Ok.
#[global] Instance result_bind : MBind result :=
  λ A B f r, match r with Ok a => f a | Raise e => Raise e end.
#[global] Instance result_fmap : FMap result :=
  λ A B f r, match r with Ok a => Ok (f a) | Raise e => Raise e end.

(** ** Python built-ins on decoded JSON *)

(** [bool(x)], the test behind [if x], [x and ...] and [any]. *)
Definition truthy (x : pyval) : bool :=
  match x with
  | PNone => false
  | PBool b => b
  | PInt z => negb (z =? 0)
  | PFloat f => negb (PrimFloat.eqb f 0%float)
  | PStr s => negb (String.eqb s "")
  | PList l => match l with [] => false | _ :: _ => true end
  | PDict d => negb (bool_decide (size d = 0%nat))
  end.

(** [x is None]. *)
Definition is_none (x : pyval) : bool :=
  match x with PNone => true | _ => false end.

(** [k in s] on two strings: [k] occurs in [s] as a substring. *)
Fixpoint str_contains (k s : string) : bool :=
  String.prefix k s ||
  match s with
  | EmptyString => false
  | String _ s' => str_contains k s'
  end.

(** ['k' == e] for a decoded JSON value [e]: only a string equals a string. *)
Definition eq_str (k : string) (e : pyval) : bool :=
  match e with PStr s => String.eqb k s | _ => false end.

(** ['k' in x]. *)
Definition py_in (k : string) (x : pyval) : result bool :=
  match x with
  | PDict d => Ok (bool_decide (is_Some (d !! k)))
  | PList l => Ok (existsb (eq_str k) l)
  | PStr s => Ok (str_contains k s)
  | PNone | PBool _ | PInt _ | PFloat _ => Raise TypeError
  end.

(** [x['k']]. *)
Definition py_getitem (x : pyval) (k : string) : result pyval :=
  match x with
  | PDict d => match d !! k with Some v => Ok v | None => Raise KeyError end
  | _ => Raise TypeError
  end.

(** [x[0]].  A decoded JSON object has string keys only, so [0] is never
    one of them. *)
Definition py_getitem0 (x : pyval) : result pyval :=
  match x with
  | PList l => match l with v :: _ => Ok v | [] => Raise IndexError end
  | PStr s =>
      match s with
      | String c _ => Ok (PStr (String c EmptyString))
      | EmptyString => Raise IndexError
      end
  | PDict _ => Raise KeyError
  | PNone | PBool _ | PInt _ | PFloat _ => Raise TypeError
  end.

(** [x.get('k', default)]: only a dict has the method. *)
Definition py_get (x : pyval) (k : string) (default : pyval) : result pyval :=
  match x with
  | PDict d => Ok (match d !! k with Some v => v | None => default end)
  | _ => Raise AttributeError
  end.

(** [len(x)]. *)
Definition py_len (x : pyval) : result Z :=
  match x with
  | PList l => Ok (Z.of_nat (length l))
  | PDict d => Ok (Z.of_nat (size d))
  | PStr s => Ok (Z.of_nat (String.length s))
  | PNone | PBool _ | PInt _ | PFloat _ => Raise TypeError
  end.

(** [int(f)] on a float: truncation towards zero; [nan] and the infinities
    have no integer. *)
Definition float_trunc (f : float) : result Z :=
  match Prim2SF f with
  | S754_zero _ => Ok 0
  | S754_infinity _ => Raise OverflowError
  | S754_nan => Raise ValueError
  | S754_finite sign m e =>
      let magnitude :=
        if 0 <=? e then Z.pos m * 2 ^ e else Z.pos m / 2 ^ (- e) in
      Ok (if sign then - magnitude else magnitude)
  end.

(** [int(s)] on a string of ASCII characters: blanks around an optionally
    signed run of decimal digits, single underscores allowed between
    digits, and no more than 4300 digits (the limit CPython sets on the
    conversion). *)
Definition is_blank (c : ascii) : bool :=
  let n := N_of_ascii c in ((9 <=? n) && (n <=? 13) || (n =? 32))%N.

Definition digit_of (c : ascii) : option Z :=
  let n := N_of_ascii c in
  if ((48 <=? n) && (n <=? 57))%N then Some (Z.of_N n - 48) else None.

Fixpoint all_blank (s : string) : bool :=
  match s with
  | EmptyString => true
  | String c s' => is_blank c && all_blank s'
  end.

Fixpoint lstrip (s : string) : string :=
  match s with
  | String c s' => if is_blank c then lstrip s' else s
  | EmptyString => s
  end.

Fixpoint parse_digits (acc : Z) (after_digit : bool) (s : string) : option Z :=
  match s with
  | EmptyString => if after_digit then Some acc else None
  | String c s' =>
      match digit_of c with
      | Some d => parse_digits (10 * acc + d) true s'
      | None =>
          if Ascii.eqb c "_" then
            if after_digit then parse_digits acc false s' else None
          else if after_digit && all_blank s then Some acc
          else None
      end
  end.

Fixpoint digit_count (s : string) : Z :=
  match s with
  | EmptyString => 0
  | String c s' =>
      match digit_of c with Some _ => 1 | None => 0 end + digit_count s'
  end.

Definition int_of_str (s : string) : result Z :=
  let parsed :=
    match lstrip s with
    | String "-" s' => Z.opp <$> parse_digits 0 false s'
    | String "+" s' => parse_digits 0 false s'
    | s' => parse_digits 0 false s'
    end in
  match parsed with
  | Some z => if 4300 <? digit_count s then Raise ValueError else Ok z
  | None => Raise ValueError
  end.

(** [int(x)]. *)
Definition py_int (x : pyval) : result Z :=
  match x with
  | PInt z => Ok z
  | PBool b => Ok (if b then 1 else 0)
  | PFloat f => float_trunc f
  | PStr s => int_of_str s
  | PNone | PList _ | PDict _ => Raise TypeError
  end.

(** [range(n)]. *)
Definition py_range (n : Z) : list Z :=
  Z.of_nat <$> seq 0 (Z.to_nat n).

(** [a and b] between two tests: [b] is consulted only when [a] holds, so
    an exception of [b] surfaces only then. *)
Definition py_and (a b : result bool) : result bool :=
  c ← a; if (c : bool) then b else Ok false.

(** ** Notion properties *)

(** The three shapes of property value the script builds:
    [Number v] is [{"number": v}], [RichTextStr v] is
    [{"rich_text": [{"text": {"content": str(v)}}]}] (the constructor holds
    the value handed to [str]), [DateStart s] is [{"date": {"start": s}}]. *)
Inductive prop_value : Type :=
| Number (v : pyval)
| RichTextStr (v : pyval)
| DateStart (s : string).

(** The [properties] dict built up to the Notion call of
    [create_notion_entry]. *)
Definition create_properties (date_str : string)
    (hrv_data rhr_data vo2_data : pyval) : result (gmap string prop_value) :=
  let properties : gmap string prop_value :=
    {[ "Date" := DateStart date_str ]} in
  properties ←
    (c ← py_and (Ok (truthy hrv_data)) (py_in "hrvSummary" hrv_data);
     if (c : bool) then
       hrv_summary ← py_getitem hrv_data "hrvSummary";
       properties ←
         (c ← py_and (py_in "lastNightAvg" hrv_summary)
                (v ← py_getitem hrv_summary "lastNightAvg";
                 Ok (negb (is_none v)));
          if (c : bool) then
            v ← py_getitem hrv_summary "lastNightAvg";
            Ok (<["Last Night HRV" := Number v]> properties)
          else Ok properties);
       properties ←
         (c ← py_and (py_in "weeklyAvg" hrv_summary)
                (v ← py_getitem hrv_summary "weeklyAvg";
                 Ok (negb (is_none v)));
          if (c : bool) then
            v ← py_getitem hrv_summary "weeklyAvg";
            Ok (<["Weekly Avg HRV" := Number v]> properties)
          else Ok properties);
       (c ← py_and (py_in "status" hrv_summary)
              (v ← py_getitem hrv_summary "status"; Ok (negb (is_none v)));
        if (c : bool) then
          v ← py_getitem hrv_summary "status";
          Ok (<["HRV Status" := RichTextStr v]> properties)
        else Ok properties)
     else Ok properties);
  properties ←
    (c ← py_and (Ok (truthy rhr_data)) (py_in "allMetrics" rhr_data);
     if (c : bool) then
       logged ← py_get rhr_data "allMetrics" (PDict ∅);
       all_metrics ← py_get rhr_data "allMetrics" (PDict ∅);
       metrics_map ← py_get all_metrics "metricsMap" (PDict ∅);
       rhr_list ← py_get metrics_map "WELLNESS_RESTING_HEART_RATE" (PList []);
       c ← py_and (Ok (truthy rhr_list))
             (py_and (n ← py_len rhr_list; Ok (0 <? n))
                (first ← py_getitem0 rhr_list; py_in "value" first));
       if (c : bool) then
         first ← py_getitem0 rhr_list;
         rhr_value ← py_getitem first "value";
         n ← py_int rhr_value;
         Ok (<["Resting Heart Rate" := Number (PInt n)]> properties)
       else Ok properties
     else Ok properties);
  if truthy vo2_data then
    properties ←
      (c ← py_and (py_in "vo2MaxValue" vo2_data)
             (v ← py_getitem vo2_data "vo2MaxValue"; Ok (negb (is_none v)));
       if (c : bool) then
         v ← py_getitem vo2_data "vo2MaxValue";
         Ok (<["VO2 Max" := Number v]> properties)
       else Ok properties);
    (c ← py_and (py_in "fitnessAge" vo2_data)
           (v ← py_getitem vo2_data "fitnessAge"; Ok (negb (is_none v)));
     if (c : bool) then
       v ← py_getitem vo2_data "fitnessAge";
       Ok (<["Fitness Age" := Number v]> properties)
     else Ok properties)
  else Ok properties.

(** The [properties] dict built up to the Notion call of
    [update_notion_entry]. *)
Definition update_properties (hrv_data rhr_data vo2_data : pyval)
  : result (gmap string prop_value) :=
  let properties : gmap string prop_value := ∅ in
  properties ←
    (c ← py_and (Ok (truthy hrv_data)) (py_in "hrvSummary" hrv_data);
     if (c : bool) then
       hrv_summary ← py_getitem hrv_data "hrvSummary";
       properties ←
         (c ← py_and (py_in "lastNightAvg" hrv_summary)
                (v ← py_getitem hrv_summary "lastNightAvg";
                 Ok (negb (is_none v)));
          if (c : bool) then
            v ← py_getitem hrv_summary "lastNightAvg";
            Ok (<["Last Night HRV" := Number v]> properties)
          else Ok properties);
       properties ←
         (c ← py_and (py_in "weeklyAvg" hrv_summary)
                (v ← py_getitem hrv_summary "weeklyAvg";
                 Ok (negb (is_none v)));
          if (c : bool) then
            v ← py_getitem hrv_summary "weeklyAvg";
            Ok (<["Weekly Avg HRV" := Number v]> properties)
          else Ok properties);
       (c ← py_and (py_in "status" hrv_summary)
              (v ← py_getitem hrv_summary "status"; Ok (negb (is_none v)));
        if (c : bool) then
          v ← py_getitem hrv_summary "status";
          Ok (<["HRV Status" := RichTextStr v]> properties)
        else Ok properties)
     else Ok properties);
  properties ←
    (c ← py_and (Ok (truthy rhr_data)) (py_in "allMetrics" rhr_data);
     if (c : bool) then
       all_metrics ← py_get rhr_data "allMetrics" (PDict ∅);
       metrics_map ← py_get all_metrics "metricsMap" (PDict ∅);
       rhr_list ← py_get metrics_map "WELLNESS_RESTING_HEART_RATE" (PList []);
       c ← py_and (Ok (truthy rhr_list))
             (py_and (n ← py_len rhr_list; Ok (0 <? n))
                (first ← py_getitem0 rhr_list; py_in "value" first));
       if (c : bool) then
         first ← py_getitem0 rhr_list;
         rhr_value ← py_getitem first "value";
         n ← py_int rhr_value;
         Ok (<["Resting Heart Rate" := Number (PInt n)]> properties)
       else Ok properties
     else Ok properties);
  if truthy vo2_data then
    properties ←
      (c ← py_and (py_in "vo2MaxValue" vo2_data)
             (v ← py_getitem vo2_data "vo2MaxValue"; Ok (negb (is_none v)));
       if (c : bool) then
         v ← py_getitem vo2_data "vo2MaxValue";
         Ok (<["VO2 Max" := Number v]> properties)
       else Ok properties);
    (c ← py_and (py_in "fitnessAge" vo2_data)
           (v ← py_getitem vo2_data "fitnessAge"; Ok (negb (is_none v)));
     if (c : bool) then
       v ← py_getitem vo2_data "fitnessAge";
       Ok (<["Fitness Age" := Number v]> properties)
     else Ok properties)
  else Ok properties.

(** ** Calendar days *)

(** A calendar day is its number of days since 1970-01-01;
    [timedelta(days=k)] is the integer [k]. *)
Definition civil_of_days (days : Z) : Z * Z * Z :=
  let z := days + 719468 in
  let era := z / 146097 in
  let doe := z mod 146097 in
  let yoe := (doe - doe / 1460 + doe / 36524 - doe / 146096) / 365 in
  let doy := doe - (365 * yoe + yoe / 4 - yoe / 100) in
  let mp := (5 * doy + 2) / 153 in
  let d := doy - (153 * mp + 2) / 5 + 1 in
  let m := if mp <? 10 then mp + 3 else mp - 9 in
  let y := yoe + era * 400 + (if m <=? 2 then 1 else 0) in
  (y, m, d).

Fixpoint zero_padded (width : nat) (n : Z) : string :=
  match width with
  | O => ""
  | S w =>
      zero_padded w (n / 10) +:+
      String (ascii_of_N (Z.to_N (48 + n mod 10))) ""
  end.

(** The days [datetime] can hold: 0001-01-01 to 9999-12-31. *)
Definition representable (day : Z) : bool :=
  (-719162 <=? day) && (day <=? 2932896).

(** A [datetime] value as far as the script looks at it: the calendar day
    it falls on, within the range of [datetime]. *)
Record date : Type := Date {
  epoch_day : Z;
  epoch_day_ok : representable epoch_day = true
}.

(** [now - timedelta(days=days_ago)]: the day [days_ago] days earlier, or
    [OverflowError] when that leaves the range of [datetime]. *)
Definition days_before (now : date) (days_ago : Z) : result date :=
  match bool_dec (representable (epoch_day now - days_ago)) true with
  | left H => Ok (Date (epoch_day now - days_ago) H)
  | right _ => Raise OverflowError
  end.

(** The number of digits of a year from 1 to 9999. *)
Definition year_width (y : Z) : nat :=
  if y <? 10 then 1 else if y <? 100 then 2 else if y <? 1000 then 3 else 4.

(** The text [%Y-%m-%d] of a day number as glibc renders it: the year
    without padding, the month and the day on two digits. *)
Definition iso_text (day : Z) : string :=
  let '(y, m, d) := civil_of_days day in
  zero_padded (year_width y) y +:+ "-" +:+ zero_padded 2 m +:+ "-" +:+
  zero_padded 2 d.

(** [date.strftime('%Y-%m-%d')]. *)
Definition strftime (d : date) : string := iso_text (epoch_day d).

(** ** Configuration *)

(** The environment variables the module reads with [os.getenv]. *)
Record config : Type := Config {
  GARMIN_EMAIL : option string;
  GARMIN_PASSWORD : option string;
  NOTION_TOKEN : option string;
  NOTION_HEALTH_DATABASE_ID : option string;
  HEALTH_DAYS_BACK : option string
}.

(** [int(os.getenv('HEALTH_DAYS_BACK', 1))]. *)
Definition DAYS_BACK (cfg : config) : result Z :=
  py_int (match HEALTH_DAYS_BACK cfg with Some s => PStr s | None => PInt 1 end).

(** Truth value of what [os.getenv] returned. *)
Definition env_set (v : option string) : bool :=
  match v with Some s => negb (String.eqb s "") | None => false end.

(** [check_credentials]: [true] when the script goes on, [false] when it
    leaves through [sys.exit(1)]. *)
Definition check_credentials (cfg : config) : bool :=
  forallb env_set
    [GARMIN_EMAIL cfg; GARMIN_PASSWORD cfg; NOTION_TOKEN cfg;
     NOTION_HEALTH_DATABASE_ID cfg].

(** ** Remote services *)

(** The calls the script makes on the Garmin and Notion clients.  The
    filter of [databases.query] is always "property [Date] equals the given
    string", so the call carries the string. *)
Inductive call : Type :=
| GarminLogin (email password : option string)
| GetHrvData (cdate : string)
| GetRhrDay (cdate : string)
| GetMaxMetrics (cdate : string)
| DatabasesQuery (database_id : option string) (date_equals : string)
| PagesCreate (database_id : option string) (properties : gmap string prop_value)
| PagesUpdate (page_id : pyval) (properties : gmap string prop_value).

Definition is_database_call (c : call) : bool :=
  match c with
  | DatabasesQuery _ _ | PagesCreate _ _ | PagesUpdate _ _ => true
  | GarminLogin _ _ | GetHrvData _ | GetRhrDay _ | GetMaxMetrics _ => false
  end.

Definition is_create_call (c : call) : bool :=
  match c with PagesCreate _ _ => true | _ => false end.

Definition is_update_call (c : call) : bool :=
  match c with PagesUpdate _ _ => true | _ => false end.

(** A model of the two services: a state [W] and, for each call, the value
    returned or the exception raised together with the next state. *)
Class Services (W : Type) : Type :=
  respond : call → W → result pyval * W.

(** Outcome of one day of the loop. *)
Inductive outcome : Type := created | updated | skipped | failed.

(** The two counters of [main], with the days seen so far and how each
    ended (most recent iteration last). *)
Record tally : Type := Tally {
  success_count : Z;
  error_count : Z;
  days : list (string * outcome)
}.

Definition record_day (date_str : string) (o : outcome) (t : tally) : tally :=
  {| success_count :=
       match o with
       | created | updated => success_count t + 1
       | skipped | failed => success_count t
       end;
     error_count :=
       match o with
       | failed => error_count t + 1
       | created | updated | skipped => error_count t
       end;
     days := (days t ++ [(date_str, o)])%list |}.

(** The system clock: the calendar day [datetime.now()] falls on in a given
    state of the world.  Every call on a service may move it. *)
Class Clock (W : Type) : Type :=
  today : W → date.

Section Script.
Context {W : Type} `{!Services W} `{!Clock W}.

(** Code that may raise, and code that cannot: both thread the service
    state and the trace of calls made so far. *)
Definition M (A : Type) : Type := W * list call → result A * (W * list call).
Definition T (A : Type) : Type := W * list call → A * (W * list call).

#[export] Instance M_ret : MRet M := λ A a st, (Ok a, st).
#[export] Instance M_bind : MBind M :=
  λ A B f m st,
    match m st with
    | (Ok a, st') => f a st'
    | (Raise e, st') => (Raise e, st')
    end.
#[export] Instance T_ret : MRet T := λ A a st, (a, st).
#[export] Instance T_bind : MBind T :=
  λ A B f m st, let '(a, st') := m st in f a st'.

(** A computation on values, which may raise, inside a [try] block. *)
Definition lift_result {A} (r : result A) : M A := λ st, (r, st).

(** Code that cannot raise, run inside a [try] block. *)
Definition lift_total {A} (t : T A) : M A :=
  λ st, let '(a, st') := t st in (Ok a, st').

(** [try: body except Exception as e: handler]. *)
Definition try_except {A} (body : M A) (handler : exn → T A) : T A :=
  λ st,
    match body st with
    | (Ok a, st') => (a, st')
    | (Raise e, st') => handler e st'
    end.

(** A call on one of the two clients. *)
Definition perform (c : call) : M pyval :=
  λ st,
    let '(r, w') := respond c st.1 in (r, (w', (st.2 ++ [c])%list)).

(** [entry_exists]. *)
Definition entry_exists (database_id : option string) (date_str : string)
  : T pyval :=
  try_except
    (query ← perform (DatabasesQuery database_id date_str);
     lift_result (py_get query "results" (PList [])))
    (λ _, mret (PList [])).

(** [create_notion_entry]. *)
Definition create_notion_entry (database_id : option string)
    (date_str : string) (hrv_data rhr_data vo2_data : pyval) : T bool :=
  try_except
    (properties ← lift_result (create_properties date_str hrv_data rhr_data vo2_data);
     _ ← perform (PagesCreate database_id properties);
     mret true)
    (λ _, mret false).

(** [update_notion_entry]. *)
Definition update_notion_entry (page_id : pyval)
    (hrv_data rhr_data vo2_data : pyval) : T bool :=
  try_except
    (properties ← lift_result (update_properties hrv_data rhr_data vo2_data);
     _ ← perform (PagesUpdate page_id properties);
     mret true)
    (λ _, mret false).

(** The three fetches at the head of the loop body, each in its own
    [try]; the variable stays [None] when the call raises. *)
Definition fetch_metrics (date_str : string) : T (pyval * pyval * pyval) :=
  hrv_data ← try_except (perform (GetHrvData date_str)) (λ _, mret PNone);
  rhr_data ← try_except (perform (GetRhrDay date_str)) (λ _, mret PNone);
  vo2_data ← try_except (perform (GetMaxMetrics date_str)) (λ _, mret PNone);
  mret (hrv_data, rhr_data, vo2_data).

(** Lines 257 to 279 of the loop body, from the test on the three
    payloads to the last counter update; the [continue] is [skipped]. *)
Definition reconcile (database_id : option string) (date_str : string)
    (hrv_data rhr_data vo2_data : pyval) : M outcome :=
  if negb (existsb truthy [hrv_data; rhr_data; vo2_data]) then
    mret skipped
  else
    existing_entries ← lift_total (entry_exists database_id date_str);
    if truthy existing_entries then
      page_id ← lift_result (first ← py_getitem0 existing_entries;
                      py_getitem first "id");
      ok ← lift_total (update_notion_entry page_id hrv_data rhr_data vo2_data);
      mret (if (ok : bool) then updated else failed)
    else
      ok ← lift_total (create_notion_entry database_id date_str
                    hrv_data rhr_data vo2_data);
      mret (if (ok : bool) then created else failed).

(** The body of the [for] loop of [main] for one [date_str]: the outer
    [try] around the fetches and the rest, with its handler. *)
Definition sync_day (database_id : option string) (date_str : string)
  : T outcome :=
  try_except
    ('(hrv_data, rhr_data, vo2_data) ← lift_total (fetch_metrics date_str);
     reconcile database_id date_str hrv_data rhr_data vo2_data)
    (λ _, mret failed).

(** The [for] loop over [range(DAYS_BACK)], from the iterations left.
    Each iteration reads the clock.  The date is computed before the
    day's [try], so its [OverflowError] is not caught and ends the loop:
    the result is the exception that ended the loop, if one did, with the
    counters as they were then. *)
Fixpoint for_days_ago (database_id : option string)
    (iterations : list Z) (t : tally) : T (option exn * tally) :=
  match iterations with
  | [] => mret (None, t)
  | days_ago :: rest =>
      λ st,
        match days_before (today st.1) days_ago with
        | Ok day =>
            let date_str := strftime day in
            let '(o, st') := sync_day database_id date_str st in
            for_days_ago database_id rest (record_day date_str o t) st'
        | Raise e => ((Some e, t), st)
        end
  end.

(** [connect_garmin]: [true] when a client is returned, [false] when the
    script leaves through [sys.exit(1)]. *)
Definition connect_garmin (cfg : config) : T bool :=
  try_except
    (_ ← perform (GarminLogin (GARMIN_EMAIL cfg) (GARMIN_PASSWORD cfg));
     mret true)
    (λ _, mret false).

(** The part of [main] from the two counters on: the loop and the value
    returned, as the exit status of [sys.exit(main())].  An exception that
    leaves the loop leaves [main] too, and the interpreter ends with
    status 1. *)
Definition main_loop (database_id : option string) (days_back : Z)
  : T (Z * tally) :=
  λ st,
    let '((uncaught, t), st') :=
      for_days_ago database_id (py_range days_back) (Tally 0 0 []) st in
    (match uncaught with
     | Some _ => 1
     | None => if error_count t =? 0 then 0 else 1
     end, t, st').

(** [sys.exit(main())]: the exit status, with the tally of the loop. *)
Definition main (cfg : config) (days_back : Z) : T (Z * tally) :=
  if negb (check_credentials cfg) then mret (1, Tally 0 0 [])
  else
    connected ← connect_garmin cfg;
    if (connected : bool) then
      main_loop (NOTION_HEALTH_DATABASE_ID cfg) days_back
    else mret (1, Tally 0 0 []).
End Script.

(** ** The extraction rules as the specification tabulates them *)

(** One step of a nested source path: a key of an object, or the first
    element of a list. *)
Inductive step : Type :=
| Key (k : string)
| First.

Definition step_into (s : step) (x : pyval) : option pyval :=
  match s, x with
  | Key k, PDict d => d !! k
  | First, PList (v :: _) => Some v
  | _, _ => None
  end.

(** The value at the end of a path, if every step of it exists. *)
Fixpoint lookup_path (p : list step) (x : pyval) : option pyval :=
  match p with
  | [] => Some x
  | s :: p' => step_into s x ≫= lookup_path p'
  end.

(** A source path "exists and is non-null". *)
Definition source_path (p : list step) (x : pyval) : option pyval :=
  v ← lookup_path p x; if is_none v then None else Some v.

(** Every value met along the path, as far as the path exists, is of the
    kind the next step needs: an object under a key, a list under an
    index. *)
Fixpoint shaped (p : list step) (x : pyval) : bool :=
  match p with
  | [] => true
  | s :: p' =>
      match s, x with
      | Key k, PDict d =>
          match d !! k with Some v => shaped p' v | None => true end
      | First, PList l =>
          match l with v :: _ => shaped p' v | [] => true end
      | _, _ => false
      end
  end.

Definition hrv_summary_path (leaf : string) : list step :=
  [Key "hrvSummary"; Key leaf].

Definition rhr_list_path : list step :=
  [Key "allMetrics"; Key "metricsMap"; Key "WELLNESS_RESTING_HEART_RATE"].

Definition rhr_path : list step :=
  [Key "allMetrics"; Key "metricsMap"; Key "WELLNESS_RESTING_HEART_RATE";
   First; Key "value"].

Definition vo2_path (leaf : string) : list step := [Key leaf].

(** The transform "truncate to integer", where [int] has a result. *)
Definition truncated (v : pyval) : option prop_value :=
  match py_int v with Ok n => Some (Number (PInt n)) | Raise _ => None end.

(** The mapping table of the specification: for each output field, the
    payload it reads, the source path and the transform. *)
Definition mapToFields (hrv rhr vo2 : pyval) : list (string * option prop_value) :=
  [ ("Last Night HRV", Number <$> source_path (hrv_summary_path "lastNightAvg") hrv);
    ("Weekly Avg HRV", Number <$> source_path (hrv_summary_path "weeklyAvg") hrv);
    ("HRV Status", RichTextStr <$> source_path (hrv_summary_path "status") hrv);
    ("Resting Heart Rate", source_path rhr_path rhr ≫= truncated);
    ("VO2 Max", Number <$> source_path (vo2_path "vo2MaxValue") vo2);
    ("Fitness Age", Number <$> source_path (vo2_path "fitnessAge") vo2) ].

(** A bundle of the expected shape: each payload is absent or shaped along
    its paths, and the resting-heart-rate value, where the path reaches
    one, is a value [int] accepts. *)
Definition payload_shaped (paths : list (list step)) (x : pyval) : bool :=
  is_none x || forallb (λ p, shaped p x) paths.

Definition bundle_shaped (hrv rhr vo2 : pyval) : bool :=
  payload_shaped
    [hrv_summary_path "lastNightAvg"; hrv_summary_path "weeklyAvg";
     hrv_summary_path "status"] hrv
  && payload_shaped [rhr_path] rhr
  && payload_shaped [vo2_path "vo2MaxValue"; vo2_path "fitnessAge"] vo2
  && match lookup_path rhr_path rhr with
     | Some v => match py_int v with Ok _ => true | Raise _ => false end
     | None => true
     end.

(** The fields a table yields: the entries that have a value, entered in
    the order of the table. *)
Definition add_rule (properties : gmap string prop_value)
    (entry : string * option prop_value) : gmap string prop_value :=
  match entry.2 with
  | Some value => <[entry.1 := value]> properties
  | None => properties
  end.

Definition table_fields (table : list (string * option prop_value))
  : gmap string prop_value :=
  fold_left add_rule table ∅.

(** ** Notions used in the statements and proofs *)

(** What a fetch leaves in its variable: the value returned, or [None]
    when the call raised. *)
Definition absent_on_raise (r : result pyval) : pyval :=
  match r with Ok v => v | Raise _ => PNone end.

Definition is_ok {A} (r : result A) : bool :=
  match r with Ok _ => true | Raise _ => false end.

(** [date_str] is the date, as the script writes it, of the day
    [days_ago] days before some reading of the clock. *)
Definition reads_back (W : Type) `{!Clock W} (days_ago : Z)
    (date_str : string) : Prop :=
  ∃ w day, days_before (today w) days_ago = Ok day ∧ date_str = strftime day.

(** The ways the upsert of a day goes wrong, [existing] being what the
    locator returned and [st] the state it left: the [id] of the first
    record cannot be read, the mapping raises, or the write call raises. *)
Definition upsert_fails {W : Type} `{!Services W} (database_id : option string)
    (date_str : string) (hrv_data rhr_data vo2_data existing : pyval)
    (st : W * list call) : bool :=
  if truthy existing then
    match first ← py_getitem0 existing; py_getitem first "id" with
    | Ok page_id =>
        match update_properties hrv_data rhr_data vo2_data with
        | Ok p => negb (is_ok (respond (PagesUpdate page_id p) st.1).1)
        | Raise _ => true
        end
    | Raise _ => true
    end
  else
    match create_properties date_str hrv_data rhr_data vo2_data with
    | Ok p => negb (is_ok (respond (PagesCreate database_id p) st.1).1)
    | Raise _ => true
    end.

Definition is_failed (o : outcome) : bool :=
  match o with failed => true | created | updated | skipped => false end.

Definition is_synced (o : outcome) : bool :=
  match o with created | updated => true | skipped | failed => false end.

(** The number of days that ended in one of the outcomes [p] selects. *)
Definition count_days (p : outcome → bool) (l : list (string * outcome)) : Z :=
  Z.of_nat (length (filter (λ x, p x.2 = true) l)).

(** Two computations end alike: both return, with related values, or both
    raise the same exception. *)
Definition sim {A B} (R : A → B → Prop) (r1 : result A) (r2 : result B) : Prop :=
  match r1, r2 with
  | Ok a, Ok b => R a b
  | Raise e1, Raise e2 => e1 = e2
  | _, _ => False
  end.

(** [pc] is [pu], which has no [Date] entry, with the [Date] entry of
    [date_str] added. *)
Definition adds_date (date_str : string) (pc pu : gmap string prop_value)
  : Prop :=
  pc = <["Date" := DateStart date_str]> pu ∧ pu !! "Date" = None.

(** [a] is [b] with one more entry. *)
Definition adds_entry (k : string) (x : prop_value)
    (a b : gmap string prop_value) : Prop :=
  a = <[k := x]> b.

(** The three parts of [update_properties], each as a function of the
    properties built before it; [update_properties_parts] below shows that
    they compose to it. *)
Definition hrv_part (hrv_data : pyval) (properties : gmap string prop_value)
  : result (gmap string prop_value) :=
  c ← py_and (Ok (truthy hrv_data)) (py_in "hrvSummary" hrv_data);
  if (c : bool) then
    hrv_summary ← py_getitem hrv_data "hrvSummary";
    properties ←
      (c ← py_and (py_in "lastNightAvg" hrv_summary)
             (v ← py_getitem hrv_summary "lastNightAvg";
              Ok (negb (is_none v)));
       if (c : bool) then
         v ← py_getitem hrv_summary "lastNightAvg";
         Ok (<["Last Night HRV" := Number v]> properties)
       else Ok properties);
    properties ←
      (c ← py_and (py_in "weeklyAvg" hrv_summary)
             (v ← py_getitem hrv_summary "weeklyAvg";
              Ok (negb (is_none v)));
       if (c : bool) then
         v ← py_getitem hrv_summary "weeklyAvg";
         Ok (<["Weekly Avg HRV" := Number v]> properties)
       else Ok properties);
    (c ← py_and (py_in "status" hrv_summary)
           (v ← py_getitem hrv_summary "status"; Ok (negb (is_none v)));
     if (c : bool) then
       v ← py_getitem hrv_summary "status";
       Ok (<["HRV Status" := RichTextStr v]> properties)
     else Ok properties)
  else Ok properties.

Definition rhr_part (rhr_data : pyval) (properties : gmap string prop_value)
  : result (gmap string prop_value) :=
  c ← py_and (Ok (truthy rhr_data)) (py_in "allMetrics" rhr_data);
  if (c : bool) then
    all_metrics ← py_get rhr_data "allMetrics" (PDict ∅);
    metrics_map ← py_get all_metrics "metricsMap" (PDict ∅);
    rhr_list ← py_get metrics_map "WELLNESS_RESTING_HEART_RATE" (PList []);
    c ← py_and (Ok (truthy rhr_list))
          (py_and (n ← py_len rhr_list; Ok (0 <? n))
             (first ← py_getitem0 rhr_list; py_in "value" first));
    if (c : bool) then
      first ← py_getitem0 rhr_list;
      rhr_value ← py_getitem first "value";
      n ← py_int rhr_value;
      Ok (<["Resting Heart Rate" := Number (PInt n)]> properties)
    else Ok properties
  else Ok properties.

Definition vo2_part (vo2_data : pyval) (properties : gmap string prop_value)
  : result (gmap string prop_value) :=
  if truthy vo2_data then
    properties ←
      (c ← py_and (py_in "vo2MaxValue" vo2_data)
             (v ← py_getitem vo2_data "vo2MaxValue"; Ok (negb (is_none v)));
       if (c : bool) then
         v ← py_getitem vo2_data "vo2MaxValue";
         Ok (<["VO2 Max" := Number v]> properties)
       else Ok properties);
    (c ← py_and (py_in "fitnessAge" vo2_data)
           (v ← py_getitem vo2_data "fitnessAge"; Ok (negb (is_none v)));
     if (c : bool) then
       v ← py_getitem vo2_data "fitnessAge";
       Ok (<["Fitness Age" := Number v]> properties)
     else Ok properties)
  else Ok properties.

(** ** Notions used in the further properties *)

(** [a] is [b] laid over [base]. *)
Definition on_top_of (base a b : gmap string prop_value) : Prop :=
  a = b ∪ base.

(** [P] holds of the value a computation returns, if it returns. *)
Definition post {A} (P : A → Prop) (r : result A) : Prop :=
  match r with Ok a => P a | Raise _ => True end.

Definition numeric_field (name : string) : bool :=
  String.eqb name "Last Night HRV" || String.eqb name "Weekly Avg HRV"
  || String.eqb name "VO2 Max" || String.eqb name "Fitness Age".

(** What a property of a given name may hold: an integer for the resting
    heart rate, a non-null value for the four other numbers and for the
    status text, a date for [Date]; no other name is allowed. *)
Definition field_ok (name : string) (x : prop_value) : bool :=
  match x with
  | Number v =>
      (String.eqb name "Resting Heart Rate"
       && match v with PInt _ => true | _ => false end)
      || (numeric_field name && negb (is_none v))
  | RichTextStr v => String.eqb name "HRV Status" && negb (is_none v)
  | DateStart _ => String.eqb name "Date"
  end.

Definition fields_ok (p : gmap string prop_value) : Prop :=
  ∀ name x, p !! name = Some x → field_ok name x = true.

(** The three Garmin calls made for a date. *)
Definition fetch_calls (d : string) : list call :=
  [GetHrvData d; GetRhrDay d; GetMaxMetrics d].

(** A query response from which [entry_exists] returns nothing true: not
    an object, no [results] key, or a [results] value that is empty or
    null. *)
Definition no_record_reported (query : pyval) : bool :=
  match query with
  | PDict response =>
      match response !! "results" with
      | Some entries => negb (truthy entries)
      | None => true
      end
  | _ => true
  end.

Definition is_write_call (c : call) : bool :=
  match c with PagesCreate _ _ | PagesUpdate _ _ => true | _ => false end.

Definition is_skipped (o : outcome) : bool :=
  match o with skipped => true | created | updated | failed => false end.

(** A call that belongs to the day [d] of a run on database [db]: a fetch
    or a query for [d], a creation in [db] dated [d], or an update that
    carries no date. *)
Definition call_for (db : option string) (d : string) (c : call) : bool :=
  match c with
  | GetHrvData d' | GetRhrDay d' | GetMaxMetrics d' => String.eqb d' d
  | DatabasesQuery db' d' => bool_decide (db' = db) && String.eqb d' d
  | PagesCreate db' p =>
      bool_decide (db' = db)
      && match p !! "Date" with
         | Some (DateStart d') => String.eqb d' d
         | _ => false
         end
  | PagesUpdate _ p =>
      match p !! "Date" with None => true | Some _ => false end
  | GarminLogin _ _ => false
  end.

(** The day number of a civil date, the inverse of [civil_of_days]. *)
Definition days_of_civil (ymd : Z * Z * Z) : Z :=
  let '(y, m, d) := ymd in
  let y' := if m <=? 2 then y - 1 else y in
  let era := y' / 400 in
  let yoe := y' - era * 400 in
  let mp := if m <=? 2 then m + 9 else m - 3 in
  let doy := (153 * mp + 2) / 5 + d - 1 in
  let doe := yoe * 365 + yoe / 4 - yoe / 100 + doy in
  era * 146097 + doe - 719468.

(** ** An in-memory model of the two services *)

Module Mem.

(** Garmin answers from three per-date tables; Notion keeps its pages in
    creation order, each with an identifier and its properties.  [fails]
    marks the calls that raise. *)
Record world : Type := World {
  hrv_source : string → pyval;
  rhr_source : string → pyval;
  vo2_source : string → pyval;
  fails : call → bool;
  pages : list (string * gmap string prop_value)
}.

Definition set_pages (w : world) (ps : list (string * gmap string prop_value))
  : world :=
  {| hrv_source := hrv_source w; rhr_source := rhr_source w;
     vo2_source := vo2_source w; fails := fails w; pages := ps |}.

Definition dated (date_str : string) (page : string * gmap string prop_value)
  : bool :=
  match page.2 !! "Date" with
  | Some (DateStart s) => String.eqb s date_str
  | _ => false
  end.

Definition page_ref (page : string * gmap string prop_value) : pyval :=
  PDict {[ "id" := PStr page.1 ]}.

Definition fresh_id (w : world) : string :=
  "page-" +:+ zero_padded 4 (Z.of_nat (length (pages w))).

(** The new properties go over the old ones of the page with that
    identifier. *)
Fixpoint write_page (page_id : string) (properties : gmap string prop_value)
    (ps : list (string * gmap string prop_value))
  : option (list (string * gmap string prop_value)) :=
  match ps with
  | [] => None
  | page :: rest =>
      if String.eqb page.1 page_id then
        Some ((page.1, properties ∪ page.2) :: rest)
      else (page ::.) <$> write_page page_id properties rest
  end.

Definition answer (c : call) (w : world) : result pyval * world :=
  match c with
  | GarminLogin _ _ => (Ok PNone, w)
  | GetHrvData d => (Ok (hrv_source w d), w)
  | GetRhrDay d => (Ok (rhr_source w d), w)
  | GetMaxMetrics d => (Ok (vo2_source w d), w)
  | DatabasesQuery _ d =>
      (Ok (PDict {[ "results" :=
                      PList (page_ref <$> filter (λ p, dated d p) (pages w)) ]}),
       w)
  | PagesCreate _ properties =>
      let page := (fresh_id w, properties) in
      (Ok (page_ref page), set_pages w (pages w ++ [page])%list)
  | PagesUpdate page_id properties =>
      match page_id with
      | PStr s =>
          match write_page s properties (pages w) with
          | Some ps => (Ok (page_ref (s, properties)), set_pages w ps)
          | None => (Raise ServiceError, w)
          end
      | _ => (Raise ServiceError, w)
      end
  end.

#[global] Instance services : Services world :=
  λ c w, if fails w c then (Raise ServiceError, w) else answer c w.

(** The clock of the model stands at 2025-11-04. *)
Definition run_day : date := Date 20396 eq_refl.

#[global] Instance clock : Clock world := λ _, run_day.

(** Payloads used in the examples. *)
Definition hrv_balanced : pyval :=
  PDict {[ "hrvSummary" :=
    PDict (<["lastNightAvg" := PInt 55]>
           (<["weeklyAvg" := PInt 60]> {[ "status" := PStr "BALANCED" ]})) ]}.

Definition rhr_with (metrics : pyval) : pyval :=
  PDict {[ "allMetrics" :=
    PDict {[ "metricsMap" :=
      PDict {[ "WELLNESS_RESTING_HEART_RATE" := metrics ]} ]} ]}.

(** The float Python reads from the literal [47.9]. *)
Definition f47_9 : float := 0x1.7f33333333333p+5%float.

Definition rhr_47_9 : pyval :=
  rhr_with (PList [PDict {[ "value" := PFloat f47_9 ]}]).

Definition rhr_two_readings : pyval :=
rhr_with (PList [PDict {[ "value" := PFloat f47_9 ]};
                 PDict {[ "value" := PInt 99 ]}]).

Definition rhr_null_value : pyval :=
  rhr_with (PList [PDict {[ "value" := PNone ]}]).

Definition hrv_null_summary : pyval := PDict {[ "hrvSummary" := PNone ]}.

Definition vo2_generic : pyval :=
  PDict (<["vo2MaxValue" := PInt 52]> {[ "fitnessAge" := PNone ]}).

Definition every_day (x : pyval) : string → pyval := λ _, x.

(** A world with the same payloads every day, no failing call and the
    given pages. *)
Definition steady (hrv rhr vo2 : pyval)
    (ps : list (string * gmap string prop_value)) : world :=
  World (every_day hrv) (every_day rhr) (every_day vo2) (λ _, false) ps.

(** The same, with the calls selected by [down] raising. *)
Definition faulty (down : call → bool) (hrv rhr vo2 : pyval)
    (ps : list (string * gmap string prop_value)) : world :=
  World (every_day hrv) (every_day rhr) (every_day vo2) down ps.

Definition vo2_down (c : call) : bool :=
  match c with GetMaxMetrics _ => true | _ => false end.

Definition query_down (c : call) : bool :=
  match c with DatabasesQuery _ _ => true | _ => false end.

Definition env : config :=
  Config (Some "runner@example.org") (Some "secret") (Some "token")
    (Some "db-1") None.

(** The shape the max-metrics endpoint answers with: a list of objects,
    the values one level down. *)
Definition vo2_listed : pyval :=
PList [PDict {[ "generic" :=
  PDict (<["vo2MaxValue" := PInt 52]> {[ "fitnessAge" := PInt 30 ]}) ]}].

Definition rhr_value_second : pyval :=
rhr_with (PList [PDict ∅; PDict {[ "value" := PInt 50 ]}]).

Definition login_down (c : call) : bool :=
match c with GarminLogin _ _ => true | _ => false end.

Definition env_without_password : config :=
Config (Some "runner@example.org") (Some "") (Some "token") (Some "db-1") None.

End Mem.

(** ** A scripted model of the two services *)

Module Scripted.

(** The answers to give, in order; every call takes the next one. *)
Definition world : Type := list (result pyval).

#[global] Instance services : Services world :=
λ _ w, match w with r :: rest => (r, rest) | [] => (Raise ServiceError, []) end.

(** The clock of this model passes midnight when the last answer is given:
    it stands at 2025-11-04 while answers are left, and one day later
    afterwards. *)
#[global] Instance clock : Clock world :=
λ w, match w with [] => Date 20397 eq_refl | _ :: _ => Date 20396 eq_refl end.

End Scripted.

(** * Properties *)

(** ** The result monad *)

Lemma bind_Ok {A B} (a : A) (f : A → result B) : Ok a ≫= f = f a.
Proof. reflexivity. Qed.

Lemma bind_Raise {A B} (e : exn) (f : A → result B) : Raise e ≫= f = Raise e.
Proof. reflexivity. Qed.

Lemma sim_bind {A B A' B'} (R' : A → B → Prop) (R : A' → B' → Prop)
    (m1 : result A) (m2 : result B) f1 f2 :
  sim R' m1 m2 → (∀ a b, R' a b → sim R (f1 a) (f2 b)) →
  sim R (m1 ≫= f1) (m2 ≫= f2).
Proof. destruct m1, m2; simpl; intros H Hf; try done. by apply Hf. Qed.

Lemma sim_bind_same {A A' B'} (R : A' → B' → Prop) (m : result A) f1 f2 :
  (∀ a, sim R (f1 a) (f2 a)) → sim R (m ≫= f1) (m ≫= f2).
Proof. destruct m; simpl; intros Hf; [apply Hf | done]. Qed.

(** ** The two writers build the same fields *)

Lemma adds_date_insert d k v pc pu :
  k ≠ "Date" → adds_date d pc pu → adds_date d (<[k:=v]> pc) (<[k:=v]> pu).
Proof.
  intros Hk [-> Hu]. split.
  - by apply insert_insert_ne.
  - by rewrite lookup_insert_ne.
Qed.

Lemma adds_entry_insert k x k' v a b :
  k' ≠ k → adds_entry k x a b → adds_entry k x (<[k':=v]> a) (<[k':=v]> b).
Proof. unfold adds_entry. intros Hk ->. by apply insert_insert_ne. Qed.

(** One step of a proof that two runs of the mapping code end alike; [R]
    relates the two [properties] dicts and [leaf] proves that an
    assignment keeps them related. *)
Ltac sim_step R leaf :=
  match goal with
  | |- sim _ (Raise _) (Raise _) => reflexivity
  | |- context [Ok _ ≫= _] => rewrite !bind_Ok
  | |- context [Raise _ ≫= _] => rewrite !bind_Raise
  | |- sim _ (mbind _ ?m) (mbind _ ?m) => apply sim_bind_same; intros ?
  | |- sim _ (mbind _ _) (mbind _ _) => apply (sim_bind R); [ | intros ? ? ?]
  | |- sim _ (if ?c then _ else _) (if ?c then _ else _) => destruct c
  | |- sim _ (Ok (<[_:=_]> _)) (Ok (<[_:=_]> _)) => by (simpl; leaf)
  | |- sim _ (Ok _) (Ok _) => assumption
  end.

Lemma mapping_sim d h r v :
  sim (adds_date d) (create_properties d h r v) (update_properties h r v).
Proof.
  unfold create_properties, update_properties.
  assert (H0 : adds_date d {[ "Date" := DateStart d ]} ∅) by done.
  revert H0.
  generalize ({[ "Date" := DateStart d ]} : gmap string prop_value).
  generalize (∅ : gmap string prop_value).
  intros pu pc H0. cbv zeta.
  destruct (py_get r "allMetrics" (PDict ∅));
    repeat sim_step (adds_date d) ltac:(apply adds_date_insert).
Qed.

(** C10.  For every bundle and date, [update_notion_entry] builds exactly
    the properties [create_notion_entry] builds with the [Date] entry
    removed, and raises exactly the exception it raises: the two copies of
    the mapping code extract the same fields with the same transforms. *)
Theorem update_is_create_without_date (date_str : string) (hrv rhr vo2 : pyval) :
  update_properties hrv rhr vo2
  = delete "Date" <$> create_properties date_str hrv rhr vo2.
Proof.
  pose proof (mapping_sim date_str hrv rhr vo2) as H.
  destruct (create_properties _ _ _ _), (update_properties _ _ _);
    simpl in *; try done; [|by subst].
  destruct H as [-> Hu]. by rewrite delete_insert_eq, delete_id.
Qed.

(** ** The mapping code against the table of extraction rules *)

Lemma update_properties_parts h r v :
  update_properties h r v = (p ← hrv_part h ∅; p ← rhr_part r p; vo2_part v p).
Proof. reflexivity. Qed.

Lemma truthy_dict_false (d : gmap string pyval) :
  truthy (PDict d) = false → d = ∅.
Proof.
  simpl. intros H. apply negb_false_iff, bool_decide_eq_true in H.
  by apply map_size_empty_iff.
Qed.

Lemma truthy_dict_lookup (d : gmap string pyval) k x :
  d !! k = Some x → truthy (PDict d) = true.
Proof.
  intros Hk. destruct (truthy (PDict d)) eqn:Ht; [done|].
  apply truthy_dict_false in Ht as ->. by rewrite lookup_empty in Hk.
Qed.

(** A statement [if k in s and s[k] is not None: properties[..] = ..] on an
    object [s]. *)
Lemma leaf_statement (s : gmap string pyval) (k : string)
    (set : pyval → gmap string prop_value) (p : gmap string prop_value) :
  (c ← py_and (py_in k (PDict s))
         (v ← py_getitem (PDict s) k; Ok (negb (is_none v)));
   if (c : bool) then v ← py_getitem (PDict s) k; Ok (set v) else Ok p)
  = Ok (match source_path [Key k] (PDict s) with
        | Some v => set v
        | None => p
        end).
Proof.
  unfold source_path. simpl. destruct (s !! k) as [x|]; simpl; [|done].
  by destruct x.
Qed.

Lemma hrv_part_shaped h p :
  payload_shaped
    [hrv_summary_path "lastNightAvg"; hrv_summary_path "weeklyAvg";
     hrv_summary_path "status"] h = true →
  hrv_part h p
  = Ok (fold_left add_rule
          [ ("Last Night HRV",
             Number <$> source_path (hrv_summary_path "lastNightAvg") h);
            ("Weekly Avg HRV",
             Number <$> source_path (hrv_summary_path "weeklyAvg") h);
            ("HRV Status",
             RichTextStr <$> source_path (hrv_summary_path "status") h) ] p).
Proof.
  unfold payload_shaped, hrv_part. intros Hs.
  destruct h as [| | | | | |d]; try done.
  destruct (truthy (PDict d)) eqn:Ht.
  2:{ apply truthy_dict_false in Ht as ->. done. }
  simpl in Hs. unfold py_and. rewrite bind_Ok.
  unfold source_path, hrv_summary_path. simpl.
  destruct (d !! "hrvSummary") as [s|] eqn:Hd; simpl; [|done].
  destruct s as [| | | | | |s]; try done.
  rewrite leaf_statement, bind_Ok, leaf_statement, bind_Ok, leaf_statement.
  unfold source_path, add_rule. simpl.
  destruct (s !! "lastNightAvg") as [[]|], (s !! "weeklyAvg") as [[]|],
    (s !! "status") as [[]|]; reflexivity.
Qed.

Lemma rhr_part_shaped r p :
  payload_shaped [rhr_path] r = true →
  match lookup_path rhr_path r with
  | Some v => match py_int v with Ok _ => true | Raise _ => false end
  | None => true
  end = true →
  rhr_part r p
  = Ok (add_rule p ("Resting Heart Rate", source_path rhr_path r ≫= truncated)).
Proof.
  unfold payload_shaped, rhr_part, source_path, rhr_path. intros Hs Hv.
  destruct r as [| | | | | |d]; try done.
  destruct (truthy (PDict d)) eqn:Ht.
  2:{ apply truthy_dict_false in Ht as ->. done. }
  simpl in Hs, Hv. unfold py_and. rewrite bind_Ok. simpl.
  destruct (d !! "allMetrics") as [am|]; simpl; [|done].
  destruct am as [| | | | | |am]; try done. simpl in *.
  destruct (am !! "metricsMap") as [mm|]; simpl in *.
  2:{ by rewrite lookup_empty. }
  destruct mm as [| | | | | |mm]; try done. simpl in *.
  destruct (mm !! "WELLNESS_RESTING_HEART_RATE") as [l|]; simpl in *; [|done].
  destruct l as [| | | | |l|]; try done.
  destruct l as [|e rest]; simpl in *; [done|].
  destruct e as [| | | | | |e]; try done. simpl in *.
  destruct (e !! "value") as [x|]; simpl in *; [|done].
  unfold add_rule, truncated. simpl.
  destruct (py_int x) eqn:E; [|done].
  assert (is_none x = false) as -> by (by destruct x).
  simpl. by rewrite E.
Qed.

Lemma vo2_part_shaped v p :
  payload_shaped [vo2_path "vo2MaxValue"; vo2_path "fitnessAge"] v = true →
  vo2_part v p
  = Ok (fold_left add_rule
          [ ("VO2 Max", Number <$> source_path (vo2_path "vo2MaxValue") v);
            ("Fitness Age", Number <$> source_path (vo2_path "fitnessAge") v) ]
          p).
Proof.
  unfold payload_shaped, vo2_part. intros Hs.
  destruct v as [| | | | | |d]; try done.
  destruct (truthy (PDict d)) eqn:Ht.
  2:{ apply truthy_dict_false in Ht as ->. done. }
  rewrite leaf_statement, bind_Ok, leaf_statement.
  unfold source_path, add_rule, vo2_path. simpl.
  destruct (d !! "vo2MaxValue") as [[]|], (d !! "fitnessAge") as [[]|];
    reflexivity.
Qed.

Lemma add_rules_other (t : list (string * option prop_value)) p k :
  k ∉ t.*1 → fold_left add_rule t p !! k = p !! k.
Proof.
  revert p. induction t as [|[k' o] t IH]; intros p Hk; [done|].
  simpl in *. apply not_elem_of_cons in Hk as [Hne Hk].
  rewrite IH by done. unfold add_rule. simpl.
  destruct o; [by rewrite lookup_insert_ne|done].
Qed.

Lemma add_rules_lookup (t : list (string * option prop_value)) p k o :
  NoDup t.*1 → p !! k = None → (k, o) ∈ t →
  fold_left add_rule t p !! k = o.
Proof.
  revert p. induction t as [|[k' o'] t IH]; intros p Hnd Hp Hin.
  { by apply elem_of_nil in Hin. }
  simpl in *. apply NoDup_cons in Hnd as [Hk' Hnd].
  apply elem_of_cons in Hin as [[= <- <-]|Hin].
  - rewrite add_rules_other by done. unfold add_rule. simpl.
    destruct o; [by rewrite lookup_insert_eq|done].
  - apply IH; [done| |done].
    assert (k ≠ k') as Hne.
    { intros ->. apply Hk'. apply list_elem_of_fmap. by exists (k', o). }
    unfold add_rule. simpl. destruct o'; [by rewrite lookup_insert_ne|done].
Qed.

Lemma mapToFields_names h r v : NoDup (mapToFields h r v).*1.
Proof.
  simpl. by apply (bool_decide_unpack _).
Qed.

Lemma mapper_on_shaped d h r v :
  bundle_shaped h r v = true →
  update_properties h r v = Ok (table_fields (mapToFields h r v))
  ∧ create_properties d h r v
    = Ok (<["Date" := DateStart d]> (table_fields (mapToFields h r v))).
Proof.
  unfold bundle_shaped. rewrite !andb_true_iff. intros [[[Hh Hr] Hv] Hx].
  assert (Hu : update_properties h r v = Ok (table_fields (mapToFields h r v))).
  { rewrite update_properties_parts, (hrv_part_shaped _ _ Hh), bind_Ok,
      (rhr_part_shaped _ _ Hr Hx), bind_Ok, (vo2_part_shaped _ _ Hv).
    reflexivity. }
  split; [done|].
  pose proof (mapping_sim d h r v) as H. rewrite Hu in H.
  destruct (create_properties d h r v) as [pc|]; [|done].
  by destruct H as [-> _].
Qed.

(** C2 (amended).  For every bundle of the expected shape (each payload
    absent or an object, every value met along a source path an object, or
    a list where the path takes the first element, and the
    resting-heart-rate value, where present, one that [int] accepts), the
    mapping code of both writers raises no exception and produces exactly
    the fields of the table: a field is there when its source path exists
    and is non-null, and is not there when a key of the path is missing at
    any depth, when the metrics list is empty, or when an HRV or VO2 leaf
    is null. *)
Theorem shaped_bundle_maps_by_table (date_str : string) (hrv rhr vo2 : pyval) :
  bundle_shaped hrv rhr vo2 = true →
  update_properties hrv rhr vo2 = Ok (table_fields (mapToFields hrv rhr vo2))
  ∧ create_properties date_str hrv rhr vo2
    = Ok (<["Date" := DateStart date_str]>
            (table_fields (mapToFields hrv rhr vo2)))
  ∧ ∀ name value,
      (name, value) ∈ mapToFields hrv rhr vo2 →
      table_fields (mapToFields hrv rhr vo2) !! name = value.
Proof.
  intros Hs. destruct (mapper_on_shaped date_str _ _ _ Hs) as [Hu Hc].
  split; [done|]. split; [done|].
  intros name value Hin. apply add_rules_lookup; [|done|done].
  apply mapToFields_names.
Qed.

Lemma shaped_bundle_maps_by_table_witness :
  bundle_shaped Mem.hrv_balanced (Mem.rhr_with (PList [])) Mem.vo2_generic = true
  ∧ update_properties Mem.hrv_balanced (Mem.rhr_with (PList [])) Mem.vo2_generic
    = Ok (table_fields
            (mapToFields Mem.hrv_balanced (Mem.rhr_with (PList []))
               Mem.vo2_generic))
  ∧ table_fields
      (mapToFields Mem.hrv_balanced (Mem.rhr_with (PList [])) Mem.vo2_generic)
    !! "Resting Heart Rate" = None.
Proof.
  split; [reflexivity|].
  destruct (shaped_bundle_maps_by_table "2025-11-04" Mem.hrv_balanced
              (Mem.rhr_with (PList [])) Mem.vo2_generic eq_refl)
    as (Hu & _ & Ht).
  split; [exact Hu|]. apply Ht. vm_compute.
  do 3 apply list_elem_of_further. apply list_elem_of_here.
Defined.

(** A null [hrvSummary] makes the mapping code of both writers raise. *)
Lemma null_summary_raises :
  update_properties Mem.hrv_null_summary PNone PNone = Raise TypeError
  ∧ create_properties "2025-11-04" Mem.hrv_null_summary PNone PNone
    = Raise TypeError.
Proof. split; vm_compute; reflexivity. Qed.

(** ** The resting heart rate *)

Lemma rhr_part_first r e rest x n p :
  lookup_path rhr_list_path r = Some (PList (PDict e :: rest)) →
  e !! "value" = Some x →
  py_int x = Ok n →
  rhr_part r p = Ok (<["Resting Heart Rate" := Number (PInt n)]> p).
Proof.
  unfold rhr_list_path, rhr_part. intros Hl He Hn.
  destruct r as [| | | | | |d]; try done. simpl in Hl.
  destruct (d !! "allMetrics") as [am|] eqn:Hd; [|done].
  rewrite (truthy_dict_lookup _ _ _ Hd). unfold py_and. rewrite bind_Ok.
  cbn [py_in py_get]. rewrite Hd.
  destruct am as [| | | | | |am]; try done. simpl in Hl.
  destruct (am !! "metricsMap") as [mm|] eqn:Ha; [|done]. simpl in Hl.
  destruct mm as [| | | | | |mm]; try done. simpl in Hl.
  destruct (mm !! "WELLNESS_RESTING_HEART_RATE") as [l|] eqn:Hm; [|done].
  injection Hl as ->. simpl. rewrite Ha. simpl. rewrite Hm. simpl.
  rewrite He. simpl. by rewrite Hn.
Qed.

Lemma vo2_part_frame k x v p :
  k ≠ "VO2 Max" → k ≠ "Fitness Age" →
  sim (adds_entry k x) (vo2_part v (<[k:=x]> p)) (vo2_part v p).
Proof.
  intros H1 H2. unfold vo2_part.
  assert (H0 : adds_entry k x (<[k:=x]> p) p) by done.
  revert H0. generalize (<[k:=x]> p). intros q H0.
  repeat sim_step (adds_entry k x) ltac:(apply adds_entry_insert).
Qed.

(** X15.  For every bundle whose resting-heart-rate payload leads
    to a non-empty [WELLNESS_RESTING_HEART_RATE] list whose first element
    is an object with a [value] that [int] accepts, and whose other two
    payloads map without exception to [others], both writers produce
    [others] plus [Resting Heart Rate] set to that value truncated to an
    integer; the elements after the first play no part. *)
Theorem rhr_first_element_truncated (date_str : string) (hrv rhr vo2 : pyval)
    (first : gmap string pyval) (rest : list pyval) (value : pyval) (n : Z)
    (others : gmap string prop_value) :
  lookup_path rhr_list_path rhr = Some (PList (PDict first :: rest)) →
  first !! "value" = Some value →
  py_int value = Ok n →
  update_properties hrv PNone vo2 = Ok others →
  update_properties hrv rhr vo2
  = Ok (<["Resting Heart Rate" := Number (PInt n)]> others)
  ∧ create_properties date_str hrv rhr vo2
    = Ok (<["Date" := DateStart date_str]>
            (<["Resting Heart Rate" := Number (PInt n)]> others)).
Proof.
  intros Hl Hv Hn Ho.
  assert (Hu : update_properties hrv rhr vo2
               = Ok (<["Resting Heart Rate" := Number (PInt n)]> others)).
  { rewrite update_properties_parts in *.
    destruct (hrv_part hrv ∅) as [p1|]; [|done].
    rewrite bind_Ok in *. rewrite (rhr_part_first _ _ _ _ _ _ Hl Hv Hn).
    change (rhr_part PNone p1) with (Ok p1) in Ho. rewrite bind_Ok in *.
    cbv beta in *.
    pose proof (vo2_part_frame "Resting Heart Rate" (Number (PInt n)) vo2 p1
                  ltac:(done) ltac:(done)) as H.
    rewrite Ho in H. revert H.
    destruct (vo2_part vo2 (<[_:=_]> p1)) as [q|]; unfold sim, adds_entry;
      [|done].
    by intros ->. }
  split; [done|].
  pose proof (mapping_sim date_str hrv rhr vo2) as H. rewrite Hu in H.
  destruct (create_properties date_str hrv rhr vo2) as [pc|]; [|done].
  by destruct H as [-> _].
Qed.

Lemma rhr_first_element_truncated_witness :
  lookup_path rhr_list_path Mem.rhr_two_readings
  = Some (PList [PDict {[ "value" := PFloat Mem.f47_9 ]};
                 PDict {[ "value" := PInt 99 ]}])
  ∧ py_int (PFloat Mem.f47_9) = Ok 47
  ∧ update_properties PNone Mem.rhr_two_readings PNone
    = Ok (<["Resting Heart Rate" := Number (PInt 47)]> ∅)
  ∧ create_properties "2025-11-04" PNone Mem.rhr_two_readings PNone
    = Ok (<["Date" := DateStart "2025-11-04"]>
            (<["Resting Heart Rate" := Number (PInt 47)]> ∅)).
Proof.
  split; [vm_compute; reflexivity|]. split; [vm_compute; reflexivity|].
  apply (rhr_first_element_truncated "2025-11-04" PNone Mem.rhr_two_readings
           PNone {[ "value" := PFloat Mem.f47_9 ]}
           [PDict {[ "value" := PInt 99 ]}] (PFloat Mem.f47_9) 47 ∅);
    vm_compute; reflexivity.
Defined.

(** C4.  A resting-heart-rate payload whose list is not empty and whose
    first element has a [value] key, the value being null: [int(None)]
    raises in the mapping code of both writers, so that no
    [Resting Heart Rate] is emitted, nor any other field.  The test of
    line 111 lacks the [is not None] of the other leaves: a null
    [lastNightAvg] is left out without an exception. *)
Lemma null_rhr_value_raises :
  lookup_path rhr_list_path Mem.rhr_null_value
  = Some (PList [PDict {[ "value" := PNone ]}])
  ∧ update_properties PNone Mem.rhr_null_value PNone = Raise TypeError
  ∧ create_properties "2025-11-04" PNone Mem.rhr_null_value PNone
    = Raise TypeError
  ∧ update_properties
      (PDict {[ "hrvSummary" := PDict {[ "lastNightAvg" := PNone ]} ]})
      PNone PNone
    = Ok ∅.
Proof. repeat split; vm_compute; reflexivity. Qed.

(** ** Runs of the script over any model of the services *)

Section Runs.
Context {W : Type} `{!Services W} `{!Clock W}.
Implicit Types (st : W * list call) (d : string) (db : option string).

Lemma perform_eq c st :
  perform c st
  = ((respond c st.1).1, ((respond c st.1).2, (st.2 ++ [c])%list)).
Proof. unfold perform. by destruct (respond c st.1). Qed.

Lemma create_notion_entry_eq db d h r v st :
  create_notion_entry db d h r v st
  = match create_properties d h r v with
    | Ok p =>
        (is_ok (respond (PagesCreate db p) st.1).1,
         ((respond (PagesCreate db p) st.1).2, (st.2 ++ [PagesCreate db p])%list))
    | Raise _ => (false, st)
    end.
Proof.
  unfold create_notion_entry, try_except, mbind, M_bind, lift_result.
  destruct (create_properties d h r v) as [p|]; [|done].
  rewrite perform_eq. by destruct (respond (PagesCreate db p) st.1) as [[] ?].
Qed.

Lemma update_notion_entry_eq pid h r v st :
  update_notion_entry pid h r v st
  = match update_properties h r v with
    | Ok p =>
        (is_ok (respond (PagesUpdate pid p) st.1).1,
         ((respond (PagesUpdate pid p) st.1).2, (st.2 ++ [PagesUpdate pid p])%list))
    | Raise _ => (false, st)
    end.
Proof.
  unfold update_notion_entry, try_except, mbind, M_bind, lift_result.
  destruct (update_properties h r v) as [p|]; [|done].
  rewrite perform_eq. by destruct (respond (PagesUpdate pid p) st.1) as [[] ?].
Qed.

Lemma entry_exists_eq db d st :
  entry_exists db d st
  = (match (respond (DatabasesQuery db d) st.1).1 with
     | Ok query =>
         match py_get query "results" (PList []) with
         | Ok entries => entries
         | Raise _ => PList []
         end
     | Raise _ => PList []
     end,
     ((respond (DatabasesQuery db d) st.1).2, (st.2 ++ [DatabasesQuery db d])%list)).
Proof.
  unfold entry_exists, try_except, mbind, M_bind, lift_result. rewrite perform_eq.
  destruct (respond (DatabasesQuery db d) st.1) as [[q|] ?]; [|done].
  simpl. by destruct (py_get q "results" (PList [])).
Qed.

Lemma fetch_metrics_eq d st :
  fetch_metrics d st
  = let r1 := respond (GetHrvData d) st.1 in
    let r2 := respond (GetRhrDay d) r1.2 in
    let r3 := respond (GetMaxMetrics d) r2.2 in
    ((absent_on_raise r1.1, absent_on_raise r2.1, absent_on_raise r3.1),
     (r3.2, (st.2 ++ [GetHrvData d; GetRhrDay d; GetMaxMetrics d])%list)).
Proof.
  unfold fetch_metrics, try_except, mbind, T_bind. rewrite !perform_eq.
  cbv zeta.
  destruct (respond (GetHrvData d) st.1) as [[h|] w1]; simpl;
    rewrite perform_eq; simpl;
    destruct (respond (GetRhrDay d) w1) as [[r|] w2]; simpl;
    rewrite perform_eq; simpl;
    destruct (respond (GetMaxMetrics d) w2) as [[v|] w3]; simpl;
    by rewrite <- !app_assoc.
Qed.

Lemma sync_day_eq db d st :
  sync_day db d st
  = let '(h, r, v) := (fetch_metrics d st).1 in
    try_except (reconcile db d h r v) (λ _, mret failed) (fetch_metrics d st).2.
Proof.
  unfold sync_day, try_except, mbind, M_bind, lift_total.
  by destruct (fetch_metrics d st) as [[[h r] v] st'].
Qed.

Lemma reconcile_skip db d h r v st :
  existsb truthy [h; r; v] = false →
  reconcile db d h r v st = (Ok skipped, st).
Proof. unfold reconcile. by intros ->. Qed.

Lemma reconcile_create db d h r v st :
  existsb truthy [h; r; v] = true →
  truthy (entry_exists db d st).1 = false →
  reconcile db d h r v st
  = let '(ok, st') := create_notion_entry db d h r v (entry_exists db d st).2 in
    (Ok (if (ok : bool) then created else failed), st').
Proof.
  unfold reconcile. intros -> He.
  unfold mbind, M_bind, lift_total. change (negb true) with false. cbv beta iota.
  destruct (entry_exists db d st) as [entries st1]. simpl in He.
  cbv beta iota. rewrite He. cbv beta iota. unfold mret, M_ret. cbn [fst snd].
  by destruct (create_notion_entry db d h r v st1).
Qed.

Lemma reconcile_update db d h r v st pid :
  existsb truthy [h; r; v] = true →
  truthy (entry_exists db d st).1 = true →
  (first ← py_getitem0 (entry_exists db d st).1; py_getitem first "id") = Ok pid →
  reconcile db d h r v st
  = let '(ok, st') := update_notion_entry pid h r v (entry_exists db d st).2 in
    (Ok (if (ok : bool) then updated else failed), st').
Proof.
  unfold reconcile. intros -> He Hid.
  unfold mbind at 1 2 3, M_bind, lift_total, lift_result.
  change (negb true) with false. cbv beta iota.
  destruct (entry_exists db d st) as [entries st1]. simpl in He, Hid.
  cbv beta iota. rewrite He, Hid. cbv beta iota. unfold mret, M_ret.
  cbn [fst snd].
  by destruct (update_notion_entry pid h r v st1).
Qed.

(** C5.  The properties of a creation are the properties of an update of
    the same bundle with [Date] set to the date string, and the latter
    have no [Date] entry; whenever the mapping of the bundle returns,
    [create_notion_entry] sends one [pages.create] whose properties hold
    that [Date] and [update_notion_entry] sends one [pages.update] whose
    properties hold none (when the mapping raises, neither sends anything).
    For a well-shaped bundle the mapping returns, so that both calls are
    sent, the creation with the date and the update without. *)
Theorem date_sent_on_create_only db d pid h r v st :
  create_properties d h r v
  = (λ p, <["Date" := DateStart d]> p) <$> update_properties h r v
  ∧ match create_properties d h r v with
    | Ok p =>
        (create_notion_entry db d h r v st).2.2 = (st.2 ++ [PagesCreate db p])%list
        ∧ p !! "Date" = Some (DateStart d)
    | Raise _ => (create_notion_entry db d h r v st).2.2 = st.2
    end
  ∧ match update_properties h r v with
    | Ok p =>
        (update_notion_entry pid h r v st).2.2 = (st.2 ++ [PagesUpdate pid p])%list
        ∧ p !! "Date" = None
    | Raise _ => (update_notion_entry pid h r v st).2.2 = st.2
    end
  ∧ (bundle_shaped h r v = true →
     let fields := table_fields (mapToFields h r v) in
     fields !! "Date" = None
     ∧ (create_notion_entry db d h r v st).2.2
       = (st.2 ++ [PagesCreate db (<["Date" := DateStart d]> fields)])%list
     ∧ (update_notion_entry pid h r v st).2.2
       = (st.2 ++ [PagesUpdate pid fields])%list).
Proof.
  rewrite create_notion_entry_eq, update_notion_entry_eq.
  pose proof (mapping_sim d h r v) as H.
  split; [|split; [|split]].
  - destruct (create_properties d h r v) as [pc|],
      (update_properties h r v) as [pu|]; simpl in *; try done; [|by subst].
    by destruct H as [-> _].
  - destruct (create_properties d h r v) as [pc|]; [|done].
    destruct (update_properties h r v) as [pu|]; [|done].
    destruct H as [-> Hu]. split; [done|]. by rewrite lookup_insert_eq.
  - destruct (update_properties h r v) as [pu|]; [|done].
    destruct (create_properties d h r v) as [pc|]; [|done].
    by destruct H as [_ Hu].
  - intros Hshape. destruct (mapper_on_shaped d h r v Hshape) as [Hu Hc].
    rewrite Hu, Hc in *. cbv zeta. by destruct H as [_ Hnone].
Qed.

(** C3.  When the three payloads fetched for a date are all absent (or
    otherwise false in Python's sense), the day ends [skipped] and the only
    calls made are the three Garmin fetches: no query, no create, no
    update. *)
Theorem absent_bundle_is_skipped db d st h r v :
  (fetch_metrics d st).1 = (h, r, v) →
  truthy h = false → truthy r = false → truthy v = false →
  sync_day db d st = (skipped, (fetch_metrics d st).2)
  ∧ (fetch_metrics d st).2.2
    = (st.2 ++ [GetHrvData d; GetRhrDay d; GetMaxMetrics d])%list
  ∧ filter is_database_call (sync_day db d st).2.2
    = filter is_database_call st.2.
Proof.
  intros Hf Hh Hr Hv.
  assert (Hs : sync_day db d st = (skipped, (fetch_metrics d st).2)).
  { rewrite sync_day_eq, Hf. unfold try_except.
    rewrite reconcile_skip; [done|]. simpl. by rewrite Hh, Hr, Hv. }
  assert (Ht : (fetch_metrics d st).2.2
               = (st.2 ++ [GetHrvData d; GetRhrDay d; GetMaxMetrics d])%list).
  { by rewrite fetch_metrics_eq. }
  split; [done|]. split; [done|].
  rewrite Hs. simpl. rewrite Ht, filter_app. simpl.
  by rewrite app_nil_r.
Qed.

(** C6.  When the bundle has a payload and the [databases.query] call of
    the locator raises, [entry_exists] returns the empty list and the day
    goes through [create_notion_entry]: it ends [created] or [failed] as
    that creation does, and no [pages.update] is sent. *)
Theorem failed_query_leads_to_create db d st h r v e :
  (fetch_metrics d st).1 = (h, r, v) →
  existsb truthy [h; r; v] = true →
  (respond (DatabasesQuery db d) (fetch_metrics d st).2.1).1 = Raise e →
  (entry_exists db d (fetch_metrics d st).2).1 = PList []
  ∧ sync_day db d st
    = (let '(ok, st') :=
         create_notion_entry db d h r v
           (entry_exists db d (fetch_metrics d st).2).2 in
       (if (ok : bool) then created else failed, st'))
  ∧ filter is_update_call (sync_day db d st).2.2 = filter is_update_call st.2.
Proof.
  intros Hf Hany Hq.
  assert (He : (entry_exists db d (fetch_metrics d st).2).1 = PList []).
  { rewrite entry_exists_eq. simpl. by rewrite Hq. }
  assert (Hs : sync_day db d st
    = (let '(ok, st') :=
         create_notion_entry db d h r v
           (entry_exists db d (fetch_metrics d st).2).2 in
       (if (ok : bool) then created else failed, st'))).
  { rewrite sync_day_eq, Hf. unfold try_except.
    rewrite reconcile_create by (by rewrite ?He).
    by destruct (create_notion_entry _ _ _ _ _ _). }
  split; [done|]. split; [done|].
  rewrite Hs, create_notion_entry_eq, entry_exists_eq, fetch_metrics_eq.
  simpl.
  destruct (create_properties d h r v); simpl;
    rewrite !filter_app; simpl; by rewrite !app_nil_r.
Qed.

Lemma reconcile_bad_record db d h r v st e :
  existsb truthy [h; r; v] = true →
  truthy (entry_exists db d st).1 = true →
  (first ← py_getitem0 (entry_exists db d st).1; py_getitem first "id")
  = Raise e →
  reconcile db d h r v st = (Raise e, (entry_exists db d st).2).
Proof.
  unfold reconcile. intros -> He Hid.
  unfold mbind at 1 2 3, M_bind, lift_total, lift_result.
  change (negb true) with false. cbv beta iota.
  destruct (entry_exists db d st) as [entries st1]. simpl in He, Hid.
  cbv beta iota. by rewrite He, Hid.
Qed.

Lemma upsert_outcome db d h r v st :
  existsb truthy [h; r; v] = true →
  let o := (try_except (reconcile db d h r v) (λ _, mret failed) st).1 in
  o ≠ skipped
  ∧ (o = failed
     ↔ upsert_fails db d h r v (entry_exists db d st).1 (entry_exists db d st).2
       = true).
Proof.
  intros Hany. unfold try_except, upsert_fails.
  destruct (truthy (entry_exists db d st).1) eqn:He.
  - destruct (first ← py_getitem0 (entry_exists db d st).1;
              py_getitem first "id") as [pid|e] eqn:Hid.
    + rewrite (reconcile_update _ _ _ _ _ _ pid) by done.
      rewrite update_notion_entry_eq.
      destruct (update_properties h r v) as [p|]; simpl; [|done].
      by destruct (is_ok (respond (PagesUpdate pid p) (entry_exists db d st).2.1).1).
    + by rewrite (reconcile_bad_record _ _ _ _ _ _ e).
  - rewrite reconcile_create by done. rewrite create_notion_entry_eq.
    destruct (create_properties d h r v) as [p|]; simpl; [|done].
    by destruct (is_ok (respond (PagesCreate db p) (entry_exists db d st).2.1).1).
Qed.

(** C7.  The three fetches are always all made, each variable holding its
    own call's value, or [None] when that call raised, and the rest of the
    day runs on these three values.  The day is [skipped] exactly when
    none of the three values is true, and [failed] exactly when one is and
    the upsert goes wrong (the [id] of the record found cannot be read,
    the mapping raises, or the write call raises): a fetch that raised
    enters only as a [None] payload, which adds no field and raises
    nothing in the mapping.  In the run where only the VO2 max fetch
    raises, the page created holds the HRV and resting-heart-rate
    fields. *)
Theorem fetches_are_independent db d st :
  let r1 := respond (GetHrvData d) st.1 in
  let r2 := respond (GetRhrDay d) r1.2 in
  let r3 := respond (GetMaxMetrics d) r2.2 in
  let h := absent_on_raise r1.1 in
  let r := absent_on_raise r2.1 in
  let v := absent_on_raise r3.1 in
  let st' := (r3.2, (st.2 ++ [GetHrvData d; GetRhrDay d; GetMaxMetrics d])%list) in
  let located := entry_exists db d st' in
  fetch_metrics d st = ((h, r, v), st')
  ∧ sync_day db d st
    = try_except (reconcile db d h r v) (λ _, mret failed) st'
  ∧ ((sync_day db d st).1 = skipped ↔ existsb truthy [h; r; v] = false)
  ∧ ((sync_day db d st).1 = failed
     ↔ existsb truthy [h; r; v] = true
       ∧ upsert_fails db d h r v located.1 located.2 = true)
  ∧ update_properties h r v = (p ← hrv_part h ∅; p ← rhr_part r p; vo2_part v p)
  ∧ (∀ p, hrv_part PNone p = Ok p ∧ rhr_part PNone p = Ok p
          ∧ vo2_part PNone p = Ok p)
  ∧ (let run :=
       sync_day (Some "db-1") "2025-11-04"
         (Mem.faulty Mem.vo2_down Mem.hrv_balanced Mem.rhr_47_9
            Mem.vo2_generic [], []) in
     run.1 = created
     ∧ prod_map id map_to_list <$> Mem.pages run.2.1
       = [("page-0000",
           [("Weekly Avg HRV", Number (PInt 60));
            ("Resting Heart Rate", Number (PInt 47));
            ("Last Night HRV", Number (PInt 55));
            ("Date", DateStart "2025-11-04");
            ("HRV Status", RichTextStr (PStr "BALANCED"))])]).
Proof.
  intros.
  assert (Hs : sync_day db d st
               = try_except (reconcile db d h r v) (λ _, mret failed) st')
    by (by rewrite sync_day_eq, fetch_metrics_eq).
  split; [by rewrite fetch_metrics_eq|]. split; [done|].
  split; [|split; [|split; [done|split; [done|]]]].
  - rewrite Hs. destruct (existsb truthy [h; r; v]) eqn:Hany.
    + destruct (upsert_outcome db d h r v st' Hany) as [Hne _]. done.
    + unfold try_except. by rewrite reconcile_skip.
  - rewrite Hs. destruct (existsb truthy [h; r; v]) eqn:Hany.
    + destruct (upsert_outcome db d h r v st' Hany) as [_ Hf].
      cbv zeta in Hf. rewrite Hf. unfold located. by intuition.
    + unfold try_except. rewrite reconcile_skip by done. simpl.
      split; [done|]. by intros [? _].
  - split; vm_compute; reflexivity.
Qed.

Lemma count_days_snoc p l day o :
  count_days p (l ++ [(day, o)]) = count_days p l + (if p o then 1 else 0).
Proof.
  unfold count_days. rewrite filter_app, length_app, Nat2Z.inj_add.
  f_equal. rewrite filter_cons, filter_nil. simpl. destruct (p o); by case_decide.
Qed.

Lemma count_days_zero p l :
  count_days p l = 0 ↔ ∀ day o, (day, o) ∈ l → p o = false.
Proof.
  unfold count_days. split.
  - intros H day o Hin. destruct (p o) eqn:Hp; [|done].
    assert ((day, o) ∈ filter (λ x, p x.2 = true) l) as Hf
      by (by apply list_elem_of_filter).
    destruct (filter _ l); [by apply elem_of_nil in Hf|done].
  - intros H. induction l as [|[day o] l IH]; [done|].
    rewrite filter_cons. simpl. rewrite (H day o) by left.
    case_decide; [done|]. apply IH. intros ???. apply (H day0). by right.
Qed.

Lemma count_days_nonzero p l :
  count_days p l ≠ 0 → ∃ day o, (day, o) ∈ l ∧ p o = true.
Proof.
  unfold count_days. intros H.
  destruct (filter (λ x, p x.2 = true) l) as [|[day o] rest] eqn:Hf; [done|].
  exists day, o.
  assert ((day, o) ∈ filter (λ x, p x.2 = true) l) as Hin
    by (rewrite Hf; left).
  apply list_elem_of_filter in Hin as [Hp Hin]. done.
Qed.

Lemma elem_of_py_range k n : k ∈ py_range n ↔ 0 ≤ k < n.
Proof.
  unfold py_range. rewrite list_elem_of_fmap. split.
  - intros (i & -> & Hi). apply elem_of_seq in Hi. lia.
  - intros Hk. exists (Z.to_nat k). split; [lia|]. apply elem_of_seq. lia.
Qed.

Lemma length_py_range n : length (py_range n) = Z.to_nat n.
Proof. unfold py_range. by rewrite length_fmap, length_seq. Qed.

Lemma days_before_Ok now k day :
  days_before now k = Ok day → epoch_day day = epoch_day now - k.
Proof.
  unfold days_before. destruct (bool_dec _ true); [|done]. by intros [= <-].
Qed.

Lemma days_before_Raise now k e :
  days_before now k = Raise e →
  e = OverflowError ∧ representable (epoch_day now - k) = false.
Proof.
  unfold days_before. destruct (bool_dec _ true) as [|Hn]; [done|].
  intros [= <-]. split; [done|]. by apply not_true_is_false.
Qed.

Lemma for_days_ago_cons db k its t st :
  for_days_ago db (k :: its) t st
  = match days_before (today st.1) k with
    | Ok day =>
        for_days_ago db its
          (record_day (strftime day) (sync_day db (strftime day) st).1 t)
          (sync_day db (strftime day) st).2
    | Raise e => ((Some e, t), st)
    end.
Proof.
  simpl. destruct (days_before _ _); [|done]. by destruct (sync_day _ _ _).
Qed.

(** The loop from any point on: the days it adds to the record are those
    of the iterations it went through, in order; it stops early only on
    the [OverflowError] of a date, at the first iteration whose date the
    clock reading of that moment puts out of range; and the two counters
    move with the days recorded. *)
Lemma for_days_ago_spec db its t st :
  let run := for_days_ago db its t st in
  ∃ processed new,
    days run.1.2 = (days t ++ new)%list
    ∧ Forall2 (reads_back W) processed new.*1
    ∧ match run.1.1 with
      | None => processed = its
      | Some e =>
          e = OverflowError
          ∧ ∃ k rest,
              its = (processed ++ k :: rest)%list
              ∧ representable (epoch_day (today run.2.1) - k) = false
      end
    ∧ error_count run.1.2 - count_days is_failed (days run.1.2)
      = error_count t - count_days is_failed (days t)
    ∧ success_count run.1.2 - count_days is_synced (days run.1.2)
      = success_count t - count_days is_synced (days t).
Proof.
  cbv zeta. revert t st. induction its as [|k its IH]; intros t st.
  - exists [], []. simpl. rewrite app_nil_r. by repeat split.
  - rewrite for_days_ago_cons.
    destruct (days_before (today st.1) k) as [day|e] eqn:Hday.
    + set (o := (sync_day db (strftime day) st).1).
      destruct (IH (record_day (strftime day) o t)
                  (sync_day db (strftime day) st).2)
        as (processed & new & Hd & Hf & Hu & He & Hs).
      exists (k :: processed), ((strftime day, o) :: new).
      split; [|split; [|split; [|split]]].
      * rewrite Hd. simpl. by rewrite <- app_assoc.
      * rewrite fmap_cons. constructor; [|done]. by exists st.1, day.
      * destruct (for_days_ago _ _ _ _).1.1.
        -- destruct Hu as (-> & k' & rest & -> & Hk). split; [done|].
           by exists k', rest.
        -- by rewrite Hu.
      * rewrite He. simpl. rewrite count_days_snoc. destruct o; simpl; lia.
      * rewrite Hs. simpl. rewrite count_days_snoc. destruct o; simpl; lia.
    + apply days_before_Raise in Hday as [-> Hk].
      exists [], []. simpl. rewrite app_nil_r.
      split; [done|]. split; [constructor|]. split; [|done].
      split; [done|]. by exists k, its.
Qed.

Lemma for_days_ago_completes db its t st :
  (∀ w k, k ∈ its → representable (epoch_day (today w) - k) = true) →
  (for_days_ago db its t st).1.1 = None.
Proof.
  intros Hrep.
  destruct (for_days_ago_spec db its t st) as (processed & new & _ & _ & Hu & _).
  destruct (for_days_ago _ _ _ _).1.1 as [e|]; [|done].
  destruct Hu as (_ & k & rest & -> & Hk).
  rewrite Hrep in Hk; [done|]. apply elem_of_app. right. left.
Qed.


Lemma main_loop_eq db days_back st :
  main_loop db days_back st
  = let run := for_days_ago db (py_range days_back) (Tally 0 0 []) st in
    ((match run.1.1 with
      | Some _ => 1
      | None => if error_count run.1.2 =? 0 then 0 else 1
      end, run.1.2), run.2).
Proof. unfold main_loop. by destruct (for_days_ago _ _ _ _) as [[[] ?] ?]. Qed.

Lemma main_eq cfg days_back st :
  main cfg days_back st
  = if check_credentials cfg then
      let login :=
        perform (GarminLogin (GARMIN_EMAIL cfg) (GARMIN_PASSWORD cfg)) st in
      if is_ok login.1 then
        main_loop (NOTION_HEALTH_DATABASE_ID cfg) days_back login.2
      else ((1, Tally 0 0 []), login.2)
    else ((1, Tally 0 0 []), st).
Proof.
  unfold main. destruct (check_credentials cfg); [|done].
  change (negb true) with false. cbv iota.
  unfold mbind at 1, T_bind, connect_garmin, try_except, mbind, M_bind.
  by destruct (perform _ st) as [[] ?].
Qed.

(** The counters at the end of the loop, stopped early or not. *)
Lemma main_loop_counts db days_back st :
  let t := (main_loop db days_back st).1.2 in
  error_count t = count_days is_failed (days t)
  ∧ success_count t = count_days is_synced (days t)
  ∧ (length (days t) ≤ Z.to_nat days_back)%nat.
Proof.
  rewrite main_loop_eq. cbv zeta. cbn [fst snd].
  destruct (for_days_ago_spec db (py_range days_back) (Tally 0 0 []) st)
    as (processed & new & Hd & Hf & Hu & He & Hs).
  cbn [days error_count success_count] in *.
  change (count_days _ []) with 0 in *.
  split; [lia|]. split; [lia|].
  rewrite Hd, app_nil_l, <- (length_fmap fst), <- (Forall2_length _ _ _ Hf).
  rewrite <- length_py_range.
  destruct (for_days_ago _ _ _ _).1.1.
  - destruct Hu as (_ & k & rest & -> & _). rewrite length_app. lia.
  - by rewrite Hu.
Qed.

Lemma main_loop_status db days_back st :
  (∀ w k, 0 ≤ k < days_back →
          representable (epoch_day (today w) - k) = true) →
  let status := (main_loop db days_back st).1.1 in
  let t := (main_loop db days_back st).1.2 in
  (status = 0 ↔ ∀ day o, (day, o) ∈ days t → o ≠ failed)
  ∧ (status ≠ 0 ↔ ∃ day, (day, failed) ∈ days t)
  ∧ Forall2 (reads_back W) (py_range days_back) (days t).*1.
Proof.
  intros Hrep.
  destruct (main_loop_counts db days_back st) as (He' & _ & _).
  revert He'. rewrite main_loop_eq. cbv zeta. cbn [fst snd].
  destruct (for_days_ago_spec db (py_range days_back) (Tally 0 0 []) st)
    as (processed & new & Hd & Hf & Hu & _).
  rewrite for_days_ago_completes in *
    by (intros w k Hk; apply Hrep; by apply elem_of_py_range).
  subst processed. simpl in Hd. rewrite <- Hd in Hf. clear Hd new.
  set (t := (for_days_ago db (py_range days_back) (Tally 0 0 []) st).1.2) in *.
  intros He'.
  assert (Hzero : error_count t = 0 ↔ ∀ day o, (day, o) ∈ days t → o ≠ failed).
  { rewrite He', count_days_zero. split; intros H day o Hin.
    - specialize (H day o Hin). by destruct o.
    - specialize (H day o Hin). by destruct o. }
  split; [|split; [|done]].
  - rewrite <- Hzero. destruct (error_count t =? 0) eqn:E; lia.
  - split.
    + intros Hne. destruct (error_count t =? 0) eqn:E; [done|].
      apply Z.eqb_neq in E. rewrite He' in E.
      apply count_days_nonzero in E as (day & o & Hin & Ho).
      exists day. by destruct o.
    + intros [day Hin] Hst.
      destruct (error_count t =? 0) eqn:E; [|done].
      apply Z.eqb_eq in E. by apply (proj1 Hzero E day failed).
Qed.


(** X16.  Take two successive runs of the loop body for one date
    in which the three fetches give the same three payloads, at least one
    of them present.  If the mapping of that bundle raises no exception,
    the locator reports no record before the first run, the
    [pages.create] call succeeds, the locator then reports a first record
    with an [id], and the [pages.update] call succeeds, then the first run
    ends [created], the second ends [updated], and the two runs together
    send exactly one [pages.create]. *)
Theorem second_sync_updates db d st h r v pc first more pid :
  let st1 := (fetch_metrics d st).2 in
  let st2 := (entry_exists db d st1).2 in
  let st3 := (perform (PagesCreate db pc) st2).2 in
  let st4 := (fetch_metrics d st3).2 in
  let st5 := (entry_exists db d st4).2 in
  let st6 := (perform (PagesUpdate pid (delete "Date" pc)) st5).2 in
  (fetch_metrics d st).1 = (h, r, v) →
  (fetch_metrics d st3).1 = (h, r, v) →
  existsb truthy [h; r; v] = true →
  create_properties d h r v = Ok pc →
  truthy (entry_exists db d st1).1 = false →
  is_ok (perform (PagesCreate db pc) st2).1 = true →
  (entry_exists db d st4).1 = PList (PDict first :: more) →
  first !! "id" = Some pid →
  is_ok (perform (PagesUpdate pid (delete "Date" pc)) st5).1 = true →
  sync_day db d st = (created, st3)
  ∧ sync_day db d st3 = (updated, st6)
  ∧ filter is_create_call st6.2
    = (filter is_create_call st.2 ++ [PagesCreate db pc])%list.
Proof.
  intros st1 st2 st3 st4 st5 st6 Hf1 Hf2 Hany Hmap Hq1 Hc Hq2 Hid Hu.
  assert (Hup : update_properties h r v = Ok (delete "Date" pc)).
  { pose proof (mapping_sim d h r v) as H. rewrite Hmap in H.
    destruct (update_properties h r v) as [pu|]; [|done].
    destruct H as [-> Hnone]. by rewrite delete_insert_eq, delete_id. }
  assert (H1 : sync_day db d st = (created, st3)).
  { rewrite sync_day_eq, Hf1. unfold try_except.
    rewrite reconcile_create by done.
    rewrite create_notion_entry_eq, Hmap. fold st1 st2.
    unfold st3. rewrite perform_eq in *. simpl in *. by rewrite Hc. }
  assert (H2 : sync_day db d st3 = (updated, st6)).
  { rewrite sync_day_eq, Hf2. unfold try_except.
    rewrite (reconcile_update _ _ _ _ _ _ pid); [|done| |].
    - rewrite update_notion_entry_eq, Hup. fold st4 st5.
      unfold st6. rewrite perform_eq in *. simpl in *. by rewrite Hu.
    - fold st4. by rewrite Hq2.
    - fold st4. rewrite Hq2. simpl. by rewrite Hid. }
  split; [done|]. split; [done|].
  unfold st6, st5, st4, st3, st2, st1.
  rewrite !perform_eq, !entry_exists_eq, !fetch_metrics_eq. simpl.
  rewrite !filter_app. simpl. by rewrite !app_nil_r.
Qed.

End Runs.

(** ** Runs against the in-memory services *)

Lemma second_sync_updates_witness :
  let st := (Mem.steady Mem.hrv_balanced Mem.rhr_47_9 Mem.vo2_generic [], []) in
  let first_run := sync_day (Some "db-1") "2025-11-04" st in
  let second_run := sync_day (Some "db-1") "2025-11-04" first_run.2 in
  first_run.1 = created
  ∧ second_run.1 = updated
  ∧ length (filter is_create_call second_run.2.2) = 1%nat.
Proof.
  intros st first_run second_run.
  destruct (mapper_on_shaped "2025-11-04" Mem.hrv_balanced Mem.rhr_47_9
              Mem.vo2_generic eq_refl) as [_ Hmap].
  destruct (second_sync_updates (Some "db-1") "2025-11-04" st
              Mem.hrv_balanced Mem.rhr_47_9 Mem.vo2_generic
              (<["Date" := DateStart "2025-11-04"]>
                 (table_fields
                    (mapToFields Mem.hrv_balanced Mem.rhr_47_9 Mem.vo2_generic)))
              {[ "id" := PStr "page-0000" ]} [] (PStr "page-0000"))
    as (H1 & H2 & H3);
    [reflexivity | reflexivity | reflexivity | exact Hmap
    | vm_compute; reflexivity | vm_compute; reflexivity | vm_compute; reflexivity
    | vm_compute; reflexivity | vm_compute; reflexivity |].
  unfold second_run, first_run. rewrite H1. cbn [fst snd]. rewrite H2.
  split; [done|]. split; [done|]. cbn [fst snd]. by rewrite H3.
Defined.

(** C1.  Two successive runs of the loop body for one date, on a
    resting-heart-rate payload whose first reading has a null [value] (the
    other two payloads absent) and with a database that never fails: the
    bundle has a payload, yet [int(None)] raises in the mapping of both
    writers, so both runs end [failed], each after its query, and no page
    is created by the first run or updated by the second. *)
Lemma null_value_day_fails_twice :
  let st := (Mem.steady PNone Mem.rhr_null_value PNone [], []) in
  let first_run := sync_day (Some "db-1") "2025-11-04" st in
  let second_run := sync_day (Some "db-1") "2025-11-04" first_run.2 in
  existsb truthy [PNone; Mem.rhr_null_value; PNone] = true
  ∧ first_run.1 = failed
  ∧ second_run.1 = failed
  ∧ Mem.pages second_run.2.1 = []
  ∧ filter is_database_call second_run.2.2
    = [DatabasesQuery (Some "db-1") "2025-11-04";
       DatabasesQuery (Some "db-1") "2025-11-04"].
Proof. repeat split; vm_compute; reflexivity. Qed.

Lemma absent_bundle_is_skipped_witness :
  let st := (Mem.steady PNone (PDict ∅) PNone [], []) in
  (sync_day (Some "db-1") "2025-11-04" st).1 = skipped
  ∧ (sync_day (Some "db-1") "2025-11-04" st).2.2
    = [GetHrvData "2025-11-04"; GetRhrDay "2025-11-04";
       GetMaxMetrics "2025-11-04"].
Proof.
  intros st.
  destruct (absent_bundle_is_skipped (Some "db-1") "2025-11-04" st
              PNone (PDict ∅) PNone)
    as (H1 & H2 & _); [reflexivity | reflexivity | reflexivity | reflexivity |].
  rewrite H1. cbn [fst snd]. by rewrite H2.
Defined.

Lemma failed_query_leads_to_create_witness :
  let st :=
    (Mem.faulty Mem.query_down Mem.hrv_balanced Mem.rhr_47_9 PNone
       [("page-0000", {[ "Date" := DateStart "2025-11-04" ]})], []) in
  (sync_day (Some "db-1") "2025-11-04" st).1 = created
  ∧ filter is_update_call (sync_day (Some "db-1") "2025-11-04" st).2.2 = [].
Proof.
  intros st.
  destruct (failed_query_leads_to_create (Some "db-1") "2025-11-04" st
              Mem.hrv_balanced Mem.rhr_47_9 PNone ServiceError)
    as (_ & H2 & H3); [reflexivity | reflexivity | reflexivity |].
  split; [|exact H3]. rewrite H2. vm_compute. reflexivity.
Defined.

Lemma date_sent_on_create_only_witness :
  let st := (Mem.steady Mem.hrv_balanced Mem.rhr_47_9 Mem.vo2_generic [], []) in
  let fields :=
    table_fields (mapToFields Mem.hrv_balanced Mem.rhr_47_9 Mem.vo2_generic) in
  bundle_shaped Mem.hrv_balanced Mem.rhr_47_9 Mem.vo2_generic = true
  ∧ fields !! "Date" = None
  ∧ (create_notion_entry (Some "db-1") "2025-11-04" Mem.hrv_balanced
       Mem.rhr_47_9 Mem.vo2_generic st).2.2
    = [PagesCreate (Some "db-1") (<["Date" := DateStart "2025-11-04"]> fields)]
  ∧ (update_notion_entry (PStr "page-0000") Mem.hrv_balanced Mem.rhr_47_9
       Mem.vo2_generic st).2.2
    = [PagesUpdate (PStr "page-0000") fields].
Proof.
  intros st fields. split; [reflexivity|].
  destruct (date_sent_on_create_only (Some "db-1") "2025-11-04"
              (PStr "page-0000") Mem.hrv_balanced Mem.rhr_47_9
              Mem.vo2_generic st) as (_ & _ & _ & H).
  exact (H eq_refl).
Defined.






(** C9.  With [HEALTH_DAYS_BACK] unset the count is 1, the default of
    line 25, and the run processes one day, today: yesterday, which the
    comment of line 24 names as the default, is not among the days
    processed, and the default covers neither yesterday alone nor
    yesterday and today. *)
Lemma default_run_leaves_yesterday_out :
  let run :=
    main Mem.env 1 (Mem.steady Mem.hrv_balanced Mem.rhr_47_9 PNone [], []) in
  DAYS_BACK Mem.env = Ok 1
  ∧ strftime Mem.run_day = "2025-11-04"
  ∧ strftime <$> days_before Mem.run_day 1 = Ok "2025-11-03"
  ∧ days run.1.2 = [("2025-11-04", created)].
Proof. repeat split; vm_compute; reflexivity. Qed.

(** * Further properties *)

(** ** The mapping code *)

Lemma bind_ret_r {A} (m : result A) : m ≫= Ok = m.
Proof. by destruct m. Qed.

Lemma bind_ext {A B} (m : result A) (f g : A → result B) :
  (∀ a, f a = g a) → m ≫= f = m ≫= g.
Proof. intros H. destruct m; simpl; [apply H|done]. Qed.

Lemma create_from_update d h r v :
  create_properties d h r v
  = (λ p, <["Date" := DateStart d]> p) <$> update_properties h r v.
Proof.
  pose proof (mapping_sim d h r v) as H.
  destruct (create_properties _ _ _ _), (update_properties _ _ _);
    simpl in *; try done; [|by subst].
  by destruct H as [-> _].
Qed.

Lemma on_top_of_insert base k x a b :
  on_top_of base a b → on_top_of base (<[k:=x]> a) (<[k:=x]> b).
Proof. unfold on_top_of. intros ->. by rewrite insert_union_l. Qed.

Lemma hrv_part_on_top base h a b :
  on_top_of base a b → sim (on_top_of base) (hrv_part h a) (hrv_part h b).
Proof.
  intros H0. unfold hrv_part.
  repeat sim_step (on_top_of base) ltac:(apply on_top_of_insert).
Qed.

Lemma rhr_part_on_top base r a b :
  on_top_of base a b → sim (on_top_of base) (rhr_part r a) (rhr_part r b).
Proof.
  intros H0. unfold rhr_part.
  repeat sim_step (on_top_of base) ltac:(apply on_top_of_insert).
Qed.

Lemma vo2_part_on_top base v a b :
  on_top_of base a b → sim (on_top_of base) (vo2_part v a) (vo2_part v b).
Proof.
  intros H0. unfold vo2_part.
  repeat sim_step (on_top_of base) ltac:(apply on_top_of_insert).
Qed.

Lemma part_on_top
    (part : gmap string prop_value → result (gmap string prop_value)) base :
  (∀ a b, on_top_of base a b → sim (on_top_of base) (part a) (part b)) →
  part base = (λ q, q ∪ base) <$> part ∅.
Proof.
  intros H. specialize (H base ∅).
  assert (on_top_of base base ∅) as H0
    by (unfold on_top_of; symmetry; apply (left_id_L ∅ (∪))).
  specialize (H H0). destruct (part base), (part ∅); simpl in *; try done.
  - by rewrite H.
  - by subst.
Qed.

Lemma update_hrv_only h : update_properties h PNone PNone = hrv_part h ∅.
Proof.
  rewrite update_properties_parts.
  change (λ p, rhr_part PNone p ≫= λ p0, vo2_part PNone p0)
    with (λ p : gmap string prop_value, Ok p).
  apply bind_ret_r.
Qed.

Lemma update_rhr_only r : update_properties PNone r PNone = rhr_part r ∅.
Proof.
  rewrite update_properties_parts.
  change (hrv_part PNone ∅) with (Ok (∅ : gmap string prop_value)).
  rewrite bind_Ok.
  change (λ p0, vo2_part PNone p0) with (λ p : gmap string prop_value, Ok p).
  apply bind_ret_r.
Qed.

Lemma update_vo2_only v : update_properties PNone PNone v = vo2_part v ∅.
Proof. reflexivity. Qed.

(** X11.  The fields mapped from a bundle are the fields mapped from each
    payload on its own, put together; an exception of the HRV payload
    comes first, then one of the resting-heart-rate payload, then one of
    the VO2 payload. *)
Theorem mapping_is_union_of_payload_mappings h r v :
  update_properties h r v
  = (p1 ← update_properties h PNone PNone;
     p2 ← update_properties PNone r PNone;
     p3 ← update_properties PNone PNone v;
     Ok (p3 ∪ (p2 ∪ p1))).
Proof.
  rewrite update_hrv_only, update_rhr_only, update_vo2_only,
    update_properties_parts.
  apply bind_ext. intros p1.
  rewrite (part_on_top (rhr_part r) p1) by (intros; by apply rhr_part_on_top).
  destruct (rhr_part r ∅) as [p2|]; [|done].
  change (vo2_part v (p2 ∪ p1) = (vo2_part v ∅ ≫= λ p3, Ok (p3 ∪ (p2 ∪ p1)))).
  rewrite (part_on_top (vo2_part v) (p2 ∪ p1))
    by (intros; by apply vo2_part_on_top).
  by destruct (vo2_part v ∅).
Qed.

Lemma vo2_part_list l p :
  existsb (eq_str "vo2MaxValue") l = false →
  existsb (eq_str "fitnessAge") l = false →
  vo2_part (PList l) p = Ok p.
Proof.
  intros H1 H2. unfold vo2_part, py_and. simpl. rewrite H1, H2.
  by destruct l.
Qed.

(** X13.  A max-metrics payload that is a list none of whose elements is
    the string [vo2MaxValue] or [fitnessAge] (a list of objects, as the
    endpoint answers) gives no VO2 field and no exception: both writers
    map the bundle as if the payload were absent. *)
Theorem list_payload_yields_no_vo2_fields d h r l :
  existsb (eq_str "vo2MaxValue") l = false →
  existsb (eq_str "fitnessAge") l = false →
  update_properties h r (PList l) = update_properties h r PNone
  ∧ create_properties d h r (PList l) = create_properties d h r PNone.
Proof.
  intros H1 H2.
  assert (Hu : update_properties h r (PList l) = update_properties h r PNone).
  { rewrite !update_properties_parts. apply bind_ext. intros p1.
    apply bind_ext. intros p2. by rewrite vo2_part_list. }
  split; [done|]. by rewrite !create_from_update, Hu.
Qed.

Lemma rhr_part_first_without_value r first rest p :
  lookup_path rhr_list_path r = Some (PList (PDict first :: rest)) →
  first !! "value" = None →
  rhr_part r p = Ok p.
Proof.
  unfold rhr_list_path, rhr_part. intros Hl He.
  destruct r as [| | | | | |d]; try done. simpl in Hl.
  destruct (d !! "allMetrics") as [am|] eqn:Hd; [|done].
  rewrite (truthy_dict_lookup _ _ _ Hd). unfold py_and. rewrite bind_Ok.
  cbn [py_in py_get]. rewrite Hd.
  destruct am as [| | | | | |am]; try done. simpl in Hl.
  destruct (am !! "metricsMap") as [mm|] eqn:Ha; [|done]. simpl in Hl.
  destruct mm as [| | | | | |mm]; try done. simpl in Hl.
  destruct (mm !! "WELLNESS_RESTING_HEART_RATE") as [l|] eqn:Hm; [|done].
  injection Hl as ->. simpl. rewrite Ha. simpl. rewrite Hm. simpl.
  by rewrite He.
Qed.

(** X14.  When the first element of the resting-heart-rate list is an
    object without a [value] key, no resting-heart-rate field is produced,
    whatever the later elements hold: both writers map the bundle as if
    the payload were absent. *)
Theorem first_element_without_value_yields_no_rhr d h r v first rest :
  lookup_path rhr_list_path r = Some (PList (PDict first :: rest)) →
  first !! "value" = None →
  update_properties h r v = update_properties h PNone v
  ∧ create_properties d h r v = create_properties d h PNone v.
Proof.
  intros Hl He.
  assert (Hu : update_properties h r v = update_properties h PNone v).
  { rewrite !update_properties_parts. apply bind_ext. intros p1.
    by rewrite (rhr_part_first_without_value _ _ _ _ Hl He). }
  split; [done|]. by rewrite !create_from_update, Hu.
Qed.

Lemma post_bind {A B} (P : B → Prop) (m : result A) (f : A → result B) :
  (∀ a, m = Ok a → post P (f a)) → post P (m ≫= f).
Proof. destruct m; simpl; [intros H; by apply H|done]. Qed.

Lemma fields_ok_insert name x p :
  field_ok name x = true → fields_ok p → fields_ok (<[name:=x]> p).
Proof.
  intros Hx Hp k y. destruct (decide (name = k)) as [<-|Hne].
  - rewrite lookup_insert_eq. by intros [= <-].
  - rewrite lookup_insert_ne by done. apply Hp.
Qed.

(** The test of a leaf statement holds only for a non-null value. *)
Lemma leaf_test_true s k v :
  py_and (py_in k s) (v ← py_getitem s k; Ok (negb (is_none v))) = Ok true →
  py_getitem s k = Ok v →
  is_none v = false.
Proof.
  unfold py_and. intros Hc Hv. rewrite Hv in Hc.
  destruct (py_in k s) as [[]|]; simpl in Hc; try done.
  injection Hc as Hc. by apply negb_true_iff.
Qed.

Lemma post_seq {A B} (Q : A → Prop) (P : B → Prop) (m : result A)
    (f : A → result B) :
  post Q m → (∀ a, Q a → post P (f a)) → post P (m ≫= f).
Proof. destruct m; simpl; [intros H Hf; by apply Hf|done]. Qed.

Ltac post_step :=
  match goal with
  | |- post _ (@mbind _ _ (gmap string prop_value) _ _ _) =>
      apply (post_seq fields_ok); [ | intros ? ?]
  | |- post _ (mbind _ _) => apply post_bind; intros ? ?
  | |- post _ (if ?c then _ else _) => destruct c eqn:?
  | |- post _ (Ok _) => simpl
  end.

Ltac fields_ok_leaf :=
  match goal with
  | |- fields_ok (<[_:=_]> _) =>
      apply fields_ok_insert; [|assumption];
      simpl; try (erewrite leaf_test_true by eassumption); reflexivity
  | |- fields_ok _ => assumption
  end.

Lemma hrv_part_fields_ok h p : fields_ok p → post fields_ok (hrv_part h p).
Proof.
  intros Hp. unfold hrv_part. repeat post_step; subst; fields_ok_leaf.
Qed.

Lemma rhr_part_fields_ok r p : fields_ok p → post fields_ok (rhr_part r p).
Proof.
  intros Hp. unfold rhr_part. repeat post_step; subst; fields_ok_leaf.
Qed.

Lemma vo2_part_fields_ok v p : fields_ok p → post fields_ok (vo2_part v p).
Proof.
  intros Hp. unfold vo2_part. repeat post_step; subst; fields_ok_leaf.
Qed.

Lemma update_fields_ok h r v : post fields_ok (update_properties h r v).
Proof.
  rewrite update_properties_parts.
  apply (post_seq fields_ok); [by apply hrv_part_fields_ok|]. intros p1 H1.
  apply (post_seq fields_ok); [by apply rhr_part_fields_ok|]. intros p2 H2.
  by apply vo2_part_fields_ok.
Qed.

(** X12.  Whatever the bundle, the properties a writer builds hold only
    the six metric names (and [Date] on creation); the resting heart rate
    is an integer, and no number or status text is built from a null
    value. *)
Theorem fields_are_known_and_typed d h r v :
  match update_properties h r v with
  | Ok p => ∀ name x, p !! name = Some x → field_ok name x = true
  | Raise _ => True
  end
  ∧ match create_properties d h r v with
    | Ok p => ∀ name x, p !! name = Some x → field_ok name x = true
    | Raise _ => True
    end.
Proof.
  pose proof (update_fields_ok h r v) as Hu. rewrite create_from_update.
  destruct (update_properties h r v) as [p|]; [|done]. simpl in *.
  split; [exact Hu|]. by apply fields_ok_insert.
Qed.

(** ** Calendar days *)

Lemma civil_round_trip z : days_of_civil (civil_of_days z) = z.
Proof.
  unfold days_of_civil, civil_of_days.
  set (zz := z + 719468).
  set (era := zz / 146097). set (doe := zz mod 146097).
  set (yoe := (doe - doe / 1460 + doe / 36524 - doe / 146096) / 365).
  set (doy := doe - (365 * yoe + yoe / 4 - yoe / 100)).
  set (mp := (5 * doy + 2) / 153).
  cbv zeta.
  assert (0 <= doe < 146097) by (apply Z.mod_pos_bound; lia).
  assert (0 <= yoe <= 399)
    by (unfold yoe; Z.to_euclidean_division_equations; lia).
  assert (0 <= doy <= 365)
    by (unfold doy, yoe; Z.to_euclidean_division_equations; lia).
  assert (0 <= mp <= 11)
    by (unfold mp; Z.to_euclidean_division_equations; lia).
  assert (zz = era * 146097 + doe)
    by (unfold era, doe; Z.to_euclidean_division_equations; lia).
  destruct (mp <? 10) eqn:E1.
  - apply Z.ltb_lt in E1.
    replace (mp + 3 <=? 2) with false by (symmetry; apply Z.leb_gt; lia).
    replace (mp + 3 - 3) with mp by lia.
    replace ((yoe + era * 400 + 0) / 400) with era
      by (Z.to_euclidean_division_equations; lia).
    unfold doy, mp in *. Z.to_euclidean_division_equations. lia.
  - apply Z.ltb_ge in E1.
    replace (mp - 9 <=? 2) with true by (symmetry; apply Z.leb_le; lia).
    replace (mp - 9 + 9) with mp by lia.
    replace ((yoe + era * 400 + 1 - 1) / 400) with era
      by (Z.to_euclidean_division_equations; lia).
    unfold doy, mp in *. Z.to_euclidean_division_equations. lia.
Qed.

Lemma civil_bounds z :
  representable z = true →
  let '(y, m, d) := civil_of_days z in
  1 <= y <= 9999 ∧ 1 <= m <= 12 ∧ 1 <= d <= 31.
Proof.
  unfold representable, civil_of_days. intros Hz.
  apply andb_true_iff in Hz as [H1 H2].
  apply Z.leb_le in H1, H2.
  set (zz := z + 719468).
  set (era := zz / 146097). set (doe := zz mod 146097).
  set (yoe := (doe - doe / 1460 + doe / 36524 - doe / 146096) / 365).
  set (doy := doe - (365 * yoe + yoe / 4 - yoe / 100)).
  set (mp := (5 * doy + 2) / 153).
  cbv zeta.
  assert (0 <= doe < 146097) by (apply Z.mod_pos_bound; lia).
  assert (0 <= yoe <= 399)
    by (unfold yoe; Z.to_euclidean_division_equations; lia).
  assert (0 <= doy <= 365)
    by (unfold doy, yoe; Z.to_euclidean_division_equations; lia).
  assert (0 <= mp <= 11)
    by (unfold mp; Z.to_euclidean_division_equations; lia).
  assert (zz = era * 146097 + doe)
    by (unfold era, doe; Z.to_euclidean_division_equations; lia).
  assert (0 <= era <= 24) by (unfold zz in *; lia).
  assert (1 <= doy - (153 * mp + 2) / 5 + 1 <= 31)
    by (unfold mp; Z.to_euclidean_division_equations; lia).
  destruct (mp <? 10) eqn:E1.
  - apply Z.ltb_lt in E1.
    replace (mp + 3 <=? 2) with false by (symmetry; apply Z.leb_gt; lia).
    split; [|split; [lia|done]].
    unfold doy, mp, yoe, zz in *. Z.to_euclidean_division_equations. lia.
  - apply Z.ltb_ge in E1.
    replace (mp - 9 <=? 2) with true by (symmetry; apply Z.leb_le; lia).
    split; [|split; [lia|done]].
    unfold doy, mp, yoe, zz in *. Z.to_euclidean_division_equations. lia.
Qed.

Lemma append_length s t :
  String.length (s +:+ t) = (String.length s + String.length t)%nat.
Proof. induction s; simpl; [done|by rewrite IHs]. Qed.

Lemma zero_padded_length w n : String.length (zero_padded w n) = w.
Proof.
  revert n. induction w as [|w IH]; intros n; [done|].
  simpl. rewrite append_length, IH. simpl. lia.
Qed.

Lemma append_inj s1 s2 t1 t2 :
  String.length s1 = String.length s2 →
  s1 +:+ t1 = s2 +:+ t2 → s1 = s2 ∧ t1 = t2.
Proof.
  revert s2. induction s1 as [|c s1 IH]; intros [|c' s2] Hl He; try done.
  simpl in *. injection He as -> He. injection Hl as Hl.
  destruct (IH _ Hl He) as [-> ->]. done.
Qed.

Lemma digit_char_inj a b :
  0 <= a < 10 → 0 <= b < 10 →
  ascii_of_N (Z.to_N (48 + a)) = ascii_of_N (Z.to_N (48 + b)) → a = b.
Proof.
  intros Ha Hb He. apply (f_equal N_of_ascii) in He.
  rewrite !N_ascii_embedding in He by lia. lia.
Qed.

Lemma zero_padded_inj w a b :
  0 <= a < 10 ^ Z.of_nat w → 0 <= b < 10 ^ Z.of_nat w →
  zero_padded w a = zero_padded w b → a = b.
Proof.
  revert a b. induction w as [|w IH]; intros a b Ha Hb He.
  { simpl in *. lia. }
  rewrite Nat2Z.inj_succ, Z.pow_succ_r in Ha, Hb by lia.
  simpl in He.
  apply append_inj in He as [Hq Hr]; [|by rewrite !zero_padded_length].
  injection Hr as Hr.
  apply digit_char_inj in Hr; [|apply Z.mod_pos_bound; lia..].
  apply IH in Hq; [|Z.to_euclidean_division_equations; lia..].
  Z.to_euclidean_division_equations. lia.
Qed.

Lemma year_width_bound y :
  1 <= y <= 9999 → 0 <= y < 10 ^ Z.of_nat (year_width y).
Proof.
  intros Hy. unfold year_width.
  destruct (y <? 10) eqn:E1; [apply Z.ltb_lt in E1; simpl; lia|].
  destruct (y <? 100) eqn:E2; [apply Z.ltb_lt in E2; simpl; lia|].
  destruct (y <? 1000) eqn:E3; [apply Z.ltb_lt in E3; simpl; lia|].
  simpl. lia.
Qed.

Lemma iso_text_inj a b :
  representable a = true → representable b = true →
  iso_text a = iso_text b → a = b.
Proof.
  intros Ha Hb He.
  pose proof (civil_bounds a Ha) as Ba. pose proof (civil_bounds b Hb) as Bb.
  rewrite <- (civil_round_trip a), <- (civil_round_trip b).
  unfold iso_text in He.
  destruct (civil_of_days a) as [[ya ma] da], (civil_of_days b) as [[yb mb] db].
  assert (Hw : year_width ya = year_width yb).
  { apply (f_equal String.length) in He.
    rewrite !append_length, !zero_padded_length in He. lia. }
  pose proof (year_width_bound ya ltac:(lia)) as Wa.
  pose proof (year_width_bound yb ltac:(lia)) as Wb.
  rewrite Hw in He, Wa.
  apply append_inj in He as [Hy He]; [|by rewrite !zero_padded_length].
  apply (append_inj "-" "-") in He as [_ He]; [|done].
  apply append_inj in He as [Hm He]; [|by rewrite !zero_padded_length].
  apply (append_inj "-" "-") in He as [_ Hd]; [|done].
  apply zero_padded_inj in Hy, Hm, Hd; simpl; try lia.
  by subst.
Qed.

Lemma strftime_inj (a b : date) :
  strftime a = strftime b → epoch_day a = epoch_day b.
Proof. apply iso_text_inj; apply epoch_day_ok. Qed.

(** ** Startup, the locator and the loop *)

Section MoreRuns.
Context {W : Type} `{!Services W} `{!Clock W}.
Implicit Types (st : W * list call) (d : string) (db : option string).

(** X1.  When one of the four credentials is unset or empty, the run
    ends with status 1 without a single call on either service. *)
Theorem missing_credential_stops_before_any_call cfg days_back st :
  env_set (GARMIN_EMAIL cfg) = false ∨ env_set (GARMIN_PASSWORD cfg) = false
  ∨ env_set (NOTION_TOKEN cfg) = false
  ∨ env_set (NOTION_HEALTH_DATABASE_ID cfg) = false →
  main cfg days_back st = ((1, Tally 0 0 []), st).
Proof.
  intros H. rewrite main_eq.
  assert (check_credentials cfg = false) as ->; [|done].
  unfold check_credentials. simpl.
  destruct H as [-> | [-> | [-> | ->]]]; by rewrite ?andb_false_r.
Qed.

(** X2.  When the credentials are set and the Garmin login raises, the
    run ends with status 1; the login is the only call made and no day is
    processed. *)
Theorem failed_login_stops_the_run cfg days_back st e :
  check_credentials cfg = true →
  (respond (GarminLogin (GARMIN_EMAIL cfg) (GARMIN_PASSWORD cfg)) st.1).1
  = Raise e →
  ∃ w, main cfg days_back st
       = ((1, Tally 0 0 []),
          (w, (st.2 ++ [GarminLogin (GARMIN_EMAIL cfg) (GARMIN_PASSWORD cfg)])%list)).
Proof.
  intros Hc Hl. rewrite main_eq, Hc, perform_eq. cbv zeta. cbn [fst snd].
  rewrite Hl. by eexists.
Qed.

(** X3.  When the query returns something that is not an object, has no
    [results] key, or has an empty or null [results], the day goes through
    [create_notion_entry] and no [pages.update] is sent. *)
Theorem empty_response_leads_to_create db d st h r v query :
  (fetch_metrics d st).1 = (h, r, v) →
  existsb truthy [h; r; v] = true →
  (respond (DatabasesQuery db d) (fetch_metrics d st).2.1).1 = Ok query →
  no_record_reported query = true →
  sync_day db d st
  = (let '(ok, st') :=
       create_notion_entry db d h r v
         (entry_exists db d (fetch_metrics d st).2).2 in
     (if (ok : bool) then created else failed, st'))
  ∧ filter is_update_call (sync_day db d st).2.2 = filter is_update_call st.2.
Proof.
  intros Hf Hany Hq Hn.
  assert (He : truthy (entry_exists db d (fetch_metrics d st).2).1 = false).
  { rewrite entry_exists_eq. cbn [fst snd]. rewrite Hq.
    destruct query as [| | | | | |resp]; try done. simpl in *.
    destruct (resp !! "results"); [by apply negb_true_iff|done]. }
  assert (Hs : sync_day db d st
    = (let '(ok, st') :=
         create_notion_entry db d h r v
           (entry_exists db d (fetch_metrics d st).2).2 in
       (if (ok : bool) then created else failed, st'))).
  { rewrite sync_day_eq, Hf. unfold try_except.
    rewrite reconcile_create by done.
    by destruct (create_notion_entry _ _ _ _ _ _). }
  split; [done|].
  rewrite Hs, create_notion_entry_eq, entry_exists_eq, fetch_metrics_eq.
  simpl.
  destruct (create_properties d h r v); simpl;
    rewrite !filter_app; simpl; by rewrite !app_nil_r.
Qed.

(** X4.  When the locator returns a list whose first element is an object
    with an [id], no [pages.create] is sent; if the mapping returns, one
    [pages.update] is sent, to that [id] and with the mapped fields, and
    the day ends [updated] or [failed] as that call does; the other
    elements of the list play no part. *)
Theorem first_record_is_updated db d st h r v first more pid :
  (fetch_metrics d st).1 = (h, r, v) →
  existsb truthy [h; r; v] = true →
  (entry_exists db d (fetch_metrics d st).2).1 = PList (PDict first :: more) →
  first !! "id" = Some pid →
  sync_day db d st
  = (let '(ok, st') :=
       update_notion_entry pid h r v
         (entry_exists db d (fetch_metrics d st).2).2 in
     (if (ok : bool) then updated else failed, st'))
  ∧ filter is_create_call (sync_day db d st).2.2 = filter is_create_call st.2
  ∧ match update_properties h r v with
    | Ok p =>
        (sync_day db d st).2.2
        = (st.2 ++ fetch_calls d ++ [DatabasesQuery db d; PagesUpdate pid p])%list
    | Raise _ =>
        (sync_day db d st).1 = failed
        ∧ (sync_day db d st).2.2
          = (st.2 ++ fetch_calls d ++ [DatabasesQuery db d])%list
    end.
Proof.
  intros Hf Hany He Hid.
  assert (Hs : sync_day db d st
    = (let '(ok, st') :=
         update_notion_entry pid h r v
           (entry_exists db d (fetch_metrics d st).2).2 in
       (if (ok : bool) then updated else failed, st'))).
  { rewrite sync_day_eq, Hf. unfold try_except.
    rewrite (reconcile_update _ _ _ _ _ _ pid); [|done|by rewrite He|].
    - by destruct (update_notion_entry _ _ _ _ _).
    - rewrite He. simpl. by rewrite Hid. }
  split; [done|].
  rewrite Hs, update_notion_entry_eq, entry_exists_eq, fetch_metrics_eq.
  unfold fetch_calls.
  destruct (update_properties h r v); cbn [fst snd];
    rewrite ?filter_app, <- ?app_assoc; simpl; rewrite ?app_nil_r; done.
Qed.

(** X5.  When the locator returns something true from which
    [existing_entries[0]['id']] cannot be read, the day ends [failed] and
    nothing is written: the calls stop at the query. *)
Theorem record_without_id_fails_the_day db d st h r v e :
  (fetch_metrics d st).1 = (h, r, v) →
  existsb truthy [h; r; v] = true →
  truthy (entry_exists db d (fetch_metrics d st).2).1 = true →
  (first ← py_getitem0 (entry_exists db d (fetch_metrics d st).2).1;
   py_getitem first "id") = Raise e →
  (sync_day db d st).1 = failed
  ∧ (sync_day db d st).2.2 = (st.2 ++ fetch_calls d ++ [DatabasesQuery db d])%list.
Proof.
  intros Hf Hany He Hid. rewrite sync_day_eq, Hf. unfold try_except.
  rewrite (reconcile_bad_record _ _ _ _ _ _ e) by done.
  unfold mret, T_ret. cbn [fst snd]. split; [done|].
  rewrite entry_exists_eq, fetch_metrics_eq. unfold fetch_calls. simpl.
  by rewrite <- app_assoc.
Qed.

Lemma day_shape db d st :
  ∃ rest,
    (sync_day db d st).2.2 = (st.2 ++ fetch_calls d ++ rest)%list
    ∧ match (sync_day db d st).1 with
      | skipped => rest = []
      | created =>
          ∃ p, rest = [DatabasesQuery db d; PagesCreate db p]
               ∧ p !! "Date" = Some (DateStart d)
      | updated =>
          ∃ pid p, rest = [DatabasesQuery db d; PagesUpdate pid p]
                   ∧ p !! "Date" = None
      | failed =>
          rest = [DatabasesQuery db d]
          ∨ (∃ p, rest = [DatabasesQuery db d; PagesCreate db p]
                  ∧ p !! "Date" = Some (DateStart d))
          ∨ (∃ pid p, rest = [DatabasesQuery db d; PagesUpdate pid p]
                      ∧ p !! "Date" = None)
      end.
Proof.
  destruct (fetch_metrics d st).1 as [[h r] v] eqn:Hf.
  assert (Ht : (fetch_metrics d st).2.2 = (st.2 ++ fetch_calls d)%list)
    by (by rewrite fetch_metrics_eq).
  destruct (existsb truthy [h; r; v]) eqn:Hany.
  2:{ exists []. rewrite sync_day_eq, Hf. unfold try_except.
      rewrite reconcile_skip by done. cbn [fst snd].
      by rewrite Ht, app_nil_r. }
  pose proof (mapping_sim d h r v) as Hsim.
  destruct (truthy (entry_exists db d (fetch_metrics d st).2).1) eqn:He.
  - destruct (first ← py_getitem0 (entry_exists db d (fetch_metrics d st).2).1;
              py_getitem first "id") as [pid|e] eqn:Hid.
    + rewrite sync_day_eq, Hf. unfold try_except.
      rewrite (reconcile_update _ _ _ _ _ _ pid) by done.
      rewrite update_notion_entry_eq, entry_exists_eq. cbn [fst snd].
      rewrite Ht.
      destruct (update_properties h r v) as [pu|].
      * exists [DatabasesQuery db d; PagesUpdate pid pu].
        assert (pu !! "Date" = None) as Hd.
        { destruct (create_properties d h r v); [|done]. by destruct Hsim. }
        cbn [fst snd]. rewrite <- !app_assoc. split; [done|].
        destruct (is_ok _); cbn [fst]; eauto 10.
      * exists [DatabasesQuery db d]. cbn [fst snd].
        rewrite <- !app_assoc. split; [done|]. by left.
    + rewrite sync_day_eq, Hf. unfold try_except.
      rewrite (reconcile_bad_record _ _ _ _ _ _ e) by done.
      rewrite entry_exists_eq. unfold mret, T_ret. cbn [fst snd]. rewrite Ht.
      exists [DatabasesQuery db d]. rewrite <- !app_assoc. split; [done|].
      by left.
  - rewrite sync_day_eq, Hf. unfold try_except.
    rewrite reconcile_create by done.
    rewrite create_notion_entry_eq, entry_exists_eq. cbn [fst snd].
    rewrite Ht.
    destruct (create_properties d h r v) as [pc|].
    + exists [DatabasesQuery db d; PagesCreate db pc].
      assert (pc !! "Date" = Some (DateStart d)) as Hd.
      { destruct (update_properties h r v); [|done].
        destruct Hsim as [-> _]. by rewrite lookup_insert_eq. }
      cbn [fst snd]. rewrite <- !app_assoc. split; [done|].
      destruct (is_ok _); cbn [fst]; eauto 10.
    + exists [DatabasesQuery db d]. cbn [fst snd].
      rewrite <- !app_assoc. split; [done|]. by left.
Qed.

(** X6.  A day makes the three fetches and then nothing (it is
    [skipped]), or one query, or one query followed by one write; a
    [created] day sent a creation with the day's date, an [updated] day
    sent an update without a date, and no day sends both. *)
Theorem day_makes_at_most_one_write db d st :
  ∃ rest,
    (sync_day db d st).2.2 = (st.2 ++ fetch_calls d ++ rest)%list
    ∧ match (sync_day db d st).1 with
      | skipped => rest = []
      | created =>
          ∃ p, rest = [DatabasesQuery db d; PagesCreate db p]
               ∧ p !! "Date" = Some (DateStart d)
      | updated =>
          ∃ pid p, rest = [DatabasesQuery db d; PagesUpdate pid p]
                   ∧ p !! "Date" = None
      | failed =>
          rest = [DatabasesQuery db d]
          ∨ (∃ p, rest = [DatabasesQuery db d; PagesCreate db p]
                  ∧ p !! "Date" = Some (DateStart d))
          ∨ (∃ pid p, rest = [DatabasesQuery db d; PagesUpdate pid p]
                      ∧ p !! "Date" = None)
      end.
Proof. apply day_shape. Qed.

Lemma day_calls_for db d st :
  ∃ new,
    (sync_day db d st).2.2 = (st.2 ++ new)%list
    ∧ Forall (λ c, call_for db d c = true) new
    ∧ (length (filter is_write_call new) ≤ 1)%nat.
Proof.
  destruct (day_shape db d st) as (rest & Ht & Hrest).
  exists (fetch_calls d ++ rest)%list. split; [done|].
  assert (Hq : call_for db d (DatabasesQuery db d) = true).
  { simpl. rewrite bool_decide_eq_true_2 by done. by rewrite String.eqb_refl. }
  assert (Hc : ∀ p, p !! "Date" = Some (DateStart d) →
                    call_for db d (PagesCreate db p) = true).
  { intros p Hp. simpl. rewrite Hp, bool_decide_eq_true_2 by done.
    by rewrite String.eqb_refl. }
  assert (Hu : ∀ pid p, p !! "Date" = None →
                        call_for db d (PagesUpdate pid p) = true).
  { intros pid p Hp. simpl. by rewrite Hp. }
  assert (Hfetch : Forall (λ c, call_for db d c = true) (fetch_calls d)).
  { unfold fetch_calls. repeat constructor; simpl; apply String.eqb_refl. }
  assert (Hw : filter is_write_call (fetch_calls d) = []) by done.
  rewrite filter_app, Hw, app_nil_l.
  destruct (sync_day db d st).1.
  - destruct Hrest as (p & -> & Hp). split; [|simpl; lia].
    apply Forall_app. split; [done|]. repeat constructor; auto.
  - destruct Hrest as (pid & p & -> & Hp). split; [|simpl; lia].
    apply Forall_app. split; [done|]. repeat constructor; auto.
  - subst rest. split; [|simpl; lia]. by rewrite app_nil_r.
  - destruct Hrest as [-> | [(p & -> & Hp) | (pid & p & -> & Hp)]];
      (split; [|simpl; lia]); apply Forall_app; (split; [done|]);
      repeat constructor; auto.
Qed.

Lemma for_days_ago_calls db its t st :
  let run := for_days_ago db its t st in
  ∃ new,
    run.2.2 = (st.2 ++ new)%list
    ∧ Forall (λ c, ∃ day, day ∈ (days run.1.2).*1
                          ∧ call_for db day c = true) new
    ∧ (length (filter is_write_call new) + length (days t)
       ≤ length (days run.1.2))%nat.
Proof.
  cbv zeta. revert t st. induction its as [|k its IH]; intros t st.
  - exists []. simpl. rewrite app_nil_r. by repeat split.
  - rewrite for_days_ago_cons.
    destruct (days_before (today st.1) k) as [day|e].
    + destruct (day_calls_for db (strftime day) st) as (n1 & H1 & F1 & L1).
      set (o := (sync_day db (strftime day) st).1) in *.
      set (st1 := (sync_day db (strftime day) st).2) in *.
      destruct (IH (record_day (strftime day) o t) st1) as (n2 & H2 & F2 & L2).
      destruct (for_days_ago_spec db its (record_day (strftime day) o t) st1)
        as (processed & new & Hd & _).
      exists (n1 ++ n2)%list. rewrite H2, H1, app_assoc.
      split; [done|]. split.
      * apply Forall_app. split; [|done].
        eapply Forall_impl; [exact F1|]. intros c Hc. exists (strftime day).
        split; [|done]. rewrite Hd. simpl. rewrite !fmap_app. simpl.
        apply elem_of_app. left. apply elem_of_app. right. left.
      * simpl in L2. rewrite length_app in L2. simpl in L2.
        rewrite filter_app, length_app. lia.
    + exists []. simpl. rewrite app_nil_r. by repeat split.
Qed.

(** X7.  Every call the loop makes is a call for one of the days it
    processed: a fetch or a query for that date, a creation in the
    configured database dated that day, or an update without a date; the
    loop sends at most one write per day processed; and each day processed
    is the date, at some reading of the clock, of one of the days of the
    range. *)
Theorem run_touches_only_its_days db days_back st :
  let run := main_loop db days_back st in
  ∃ new,
    run.2.2 = (st.2 ++ new)%list
    ∧ Forall (λ c, ∃ day, day ∈ (days run.1.2).*1
                          ∧ call_for db day c = true) new
    ∧ (length (filter is_write_call new) ≤ length (days run.1.2)
       ≤ Z.to_nat days_back)%nat
    ∧ Forall (λ day, ∃ k, 0 ≤ k < days_back ∧ reads_back W k day)
        (days run.1.2).*1.
Proof.
  destruct (for_days_ago_calls db (py_range days_back) (Tally 0 0 []) st)
    as (new & Ht & Hf & Hl).
  destruct (main_loop_counts db days_back st) as (_ & _ & Hlen).
  destruct (for_days_ago_spec db (py_range days_back) (Tally 0 0 []) st)
    as (processed & added & Hd & Hr & Hu & _).
  revert Hlen. rewrite main_loop_eq. cbv zeta. cbn [fst snd] in *. intros Hlen.
  exists new. split; [done|]. split; [done|]. split; [lia|].
  rewrite Hd. simpl.
  assert (Hsub : ∀ k, k ∈ processed → 0 ≤ k < days_back).
  { intros k Hk. apply elem_of_py_range.
    destruct (for_days_ago _ _ _ _).1.1.
    - destruct Hu as (_ & k' & rest & -> & _). apply elem_of_app. by left.
    - by rewrite <- Hu. }
  apply Forall_forall. intros day Hday.
  apply list_elem_of_lookup in Hday as [i Hi].
  destruct (Forall2_lookup_r _ _ _ _ _ Hr Hi) as (k & Hk & Hread).
  exists k. split; [|done]. apply Hsub. by eapply list_elem_of_lookup_2.
Qed.

Lemma count_days_partition l :
  count_days is_synced l + count_days is_failed l + count_days is_skipped l
  = Z.of_nat (length l).
Proof.
  induction l as [|[day o] l IH]; [done|].
  change ((day, o) :: l) with ([(day, o)] ++ l)%list.
  unfold count_days in *. rewrite !filter_app, !length_app, !Nat2Z.inj_add.
  rewrite <- IH. unfold count_days.
  destruct o; rewrite !filter_cons, !filter_nil; simpl;
    repeat case_decide; try done; simpl; lia.
Qed.

(** X8.  At the end of the loop the two counters and the number of skipped
    days add up to the number of days processed: a skipped day is counted
    neither as a success nor as an error.  The days processed are never
    more than the day count, and are as many when every date of the range
    is one [datetime] can hold. *)
Theorem counters_leave_out_skipped_days db days_back st :
  let t := (main_loop db days_back st).1.2 in
  success_count t + error_count t + count_days is_skipped (days t)
  = Z.of_nat (length (days t))
  ∧ (length (days t) ≤ Z.to_nat days_back)%nat
  ∧ ((∀ w k, 0 ≤ k < days_back →
             representable (epoch_day (today w) - k) = true) →
     length (days t) = Z.to_nat days_back).
Proof.
  destruct (main_loop_counts db days_back st) as (He & Hs & Hlen). cbv zeta.
  split; [|split; [done|]].
  - rewrite He, Hs. apply count_days_partition.
  - intros Hrep.
    destruct (main_loop_status db days_back st Hrep) as (_ & _ & Hf).
    apply Forall2_length in Hf.
    by rewrite length_fmap, length_py_range in Hf.
Qed.

(** X9.  With a day count of zero or less the loop processes no day, makes
    no call and returns 0. *)
Theorem no_day_for_a_count_below_one db days_back st :
  days_back ≤ 0 →
  main_loop db days_back st = ((0, Tally 0 0 []), st).
Proof.
  intros H. unfold main_loop, py_range.
  by replace (Z.to_nat days_back) with 0%nat by lia.
Qed.

Lemma steady_clock_days db days_back now st :
  (∀ w, today w = now) →
  (∀ k, 0 ≤ k < days_back → representable (epoch_day now - k) = true) →
  (days (main_loop db days_back st).1.2).*1
  = (λ k, iso_text (epoch_day now - k)) <$> py_range days_back.
Proof.
  intros Hnow Hrep.
  destruct (main_loop_status db days_back st) as (_ & _ & Hf).
  { intros w k Hk. rewrite Hnow. by apply Hrep. }
  induction Hf as [|k x ks xs (w & day & Hday & ->) _ IH]; [done|].
  rewrite !fmap_cons, <- IH. f_equal. unfold strftime.
  apply days_before_Ok in Hday. by rewrite Hday, Hnow.
Qed.

(** X10.  In a run during which the clock stays on one day, and when every
    day of the range is a date [datetime] can hold, the days processed
    have pairwise distinct date strings: no date is processed twice. *)
Theorem run_processes_distinct_dates db days_back now st :
  (∀ w, today w = now) →
  (∀ k, 0 ≤ k < days_back → representable (epoch_day now - k) = true) →
  NoDup (days (main_loop db days_back st).1.2).*1.
Proof.
  intros Hnow Hrep. rewrite (steady_clock_days db days_back now) by done.
  apply NoDup_fmap_2_strong.
  - intros a b Ha Hb He. apply elem_of_py_range in Ha, Hb.
    apply iso_text_inj in He; [lia|by apply Hrep..].
  - unfold py_range. apply NoDup_fmap; [apply _|apply NoDup_seq].
Qed.

(** X17.  In a run during which the clock stays on one day, a count of
    [days_back] whose range holds only dates [datetime] can hold makes the
    loop process exactly that many days: today first, then the days before
    it, one by one. *)
Theorem days_back_counts_from_today db days_back now st :
  (∀ w, today w = now) →
  (∀ k, 0 ≤ k < days_back → representable (epoch_day now - k) = true) →
  let processed := (days (main_loop db days_back st).1.2).*1 in
  processed = (λ k, iso_text (epoch_day now - k)) <$> py_range days_back
  ∧ length processed = Z.to_nat days_back.
Proof.
  intros Hnow Hrep. cbv zeta.
  rewrite (steady_clock_days db days_back now) by done.
  split; [done|]. by rewrite length_fmap, length_py_range.
Qed.

End MoreRuns.

(** ** Runs against the two models *)

Lemma missing_credential_stops_before_any_call_witness :
  (main Mem.env_without_password 1
     (Mem.steady Mem.hrv_balanced Mem.rhr_47_9 PNone [], [])).1.1 = 1
  ∧ (main Mem.env_without_password 1
       (Mem.steady Mem.hrv_balanced Mem.rhr_47_9 PNone [], [])).2.2 = [].
Proof.
  rewrite (missing_credential_stops_before_any_call Mem.env_without_password
             1 (Mem.steady Mem.hrv_balanced Mem.rhr_47_9 PNone [], []));
    [done|].
  right. left. reflexivity.
Defined.

Lemma failed_login_stops_the_run_witness :
  ∃ w, main Mem.env 2
         (Mem.faulty Mem.login_down Mem.hrv_balanced Mem.rhr_47_9 PNone [], [])
       = ((1, Tally 0 0 []),
          (w, [GarminLogin (Some "runner@example.org") (Some "secret")])).
Proof.
  apply (failed_login_stops_the_run Mem.env 2
           (Mem.faulty Mem.login_down Mem.hrv_balanced Mem.rhr_47_9 PNone [], [])
           ServiceError); reflexivity.
Defined.

Lemma empty_response_leads_to_create_witness :
  let st := (Mem.steady Mem.hrv_balanced Mem.rhr_47_9 PNone [], []) in
  (sync_day (Some "db-1") "2025-11-04" st).1 = created
  ∧ filter is_update_call (sync_day (Some "db-1") "2025-11-04" st).2.2 = [].
Proof.
  intros st.
  destruct (empty_response_leads_to_create (Some "db-1") "2025-11-04" st
              Mem.hrv_balanced Mem.rhr_47_9 PNone
              (PDict {[ "results" := PList [] ]}))
    as (H1 & H2); [reflexivity | reflexivity | reflexivity | reflexivity |].
  split; [|exact H2]. rewrite H1. vm_compute. reflexivity.
Defined.

Lemma first_record_is_updated_witness :
  let st :=
    (Mem.steady PNone Mem.rhr_47_9 PNone
       [("page-0000", {[ "Date" := DateStart "2025-11-04" ]});
        ("page-0001", {[ "Date" := DateStart "2025-11-04" ]})], []) in
  (sync_day (Some "db-1") "2025-11-04" st).2.2
  = [GetHrvData "2025-11-04"; GetRhrDay "2025-11-04";
     GetMaxMetrics "2025-11-04"; DatabasesQuery (Some "db-1") "2025-11-04";
     PagesUpdate (PStr "page-0000")
       (<["Resting Heart Rate" := Number (PInt 47)]> ∅)].
Proof.
  intros st.
  destruct (first_record_is_updated (Some "db-1") "2025-11-04" st
              PNone Mem.rhr_47_9 PNone {[ "id" := PStr "page-0000" ]}
              [PDict {[ "id" := PStr "page-0001" ]}] (PStr "page-0000"))
    as (_ & _ & H);
    [reflexivity | reflexivity | vm_compute; reflexivity | reflexivity |].
  change (update_properties PNone Mem.rhr_47_9 PNone)
    with (Ok (<["Resting Heart Rate" := Number (PInt 47)]> ∅
              : gmap string prop_value)) in H.
  exact H.
Defined.

Lemma record_without_id_fails_the_day_witness :
  let st : Scripted.world * list call :=
    ([Ok Mem.hrv_balanced; Ok PNone; Ok PNone;
      Ok (PDict {[ "results" := PList [PDict ∅] ]})], []) in
  (sync_day (Some "db-1") "2025-11-04" st).1 = failed
  ∧ (sync_day (Some "db-1") "2025-11-04" st).2.2
    = [GetHrvData "2025-11-04"; GetRhrDay "2025-11-04";
       GetMaxMetrics "2025-11-04"; DatabasesQuery (Some "db-1") "2025-11-04"].
Proof.
  intros st.
  apply (record_without_id_fails_the_day (Some "db-1") "2025-11-04" st
           Mem.hrv_balanced PNone PNone KeyError);
    vm_compute; reflexivity.
Defined.

Lemma no_day_for_a_count_below_one_witness :
  main_loop (Some "db-1") (-3)
    (Mem.steady Mem.hrv_balanced Mem.rhr_47_9 PNone [], [])
  = ((0, Tally 0 0 []), (Mem.steady Mem.hrv_balanced Mem.rhr_47_9 PNone [], [])).
Proof.
  apply (no_day_for_a_count_below_one (Some "db-1") (-3)). lia.
Defined.

Lemma counters_leave_out_skipped_days_witness :
  length (days (main_loop (Some "db-1") 3
                  (Mem.steady Mem.hrv_balanced Mem.rhr_47_9 PNone [], [])).1.2)
  = 3%nat.
Proof.
  destruct (counters_leave_out_skipped_days (Some "db-1") 3
              (Mem.steady Mem.hrv_balanced Mem.rhr_47_9 PNone [], []))
    as (_ & _ & H).
  apply H. intros w k Hk. change (today w) with Mem.run_day. simpl.
  unfold representable. apply andb_true_iff. split; apply Z.leb_le; lia.
Defined.

Lemma run_processes_distinct_dates_witness :
  NoDup (days (main_loop (Some "db-1") 3
                 (Mem.steady Mem.hrv_balanced Mem.rhr_47_9 PNone [], [])).1.2).*1.
Proof.
  apply (run_processes_distinct_dates (Some "db-1") 3 Mem.run_day);
    [reflexivity|].
  intros k Hk. simpl. unfold representable. apply andb_true_iff.
  split; apply Z.leb_le; lia.
Defined.

Lemma days_back_counts_from_today_witness :
  (days (main_loop (Some "db-1") 3
           (Mem.steady Mem.hrv_balanced Mem.rhr_47_9 PNone [], [])).1.2).*1
  = ["2025-11-04"; "2025-11-03"; "2025-11-02"].
Proof.
  destruct (days_back_counts_from_today (Some "db-1") 3 Mem.run_day
              (Mem.steady Mem.hrv_balanced Mem.rhr_47_9 PNone [], []))
    as [H _]; [reflexivity| |exact H].
  intros k Hk. simpl. unfold representable. apply andb_true_iff.
  split; apply Z.leb_le; lia.
Defined.

(** The clock is read at every iteration: in a run over two days during
    which midnight passes after the fetches of the first day, both
    iterations work on the same date. *)
Lemma midnight_run_repeats_a_date :
  let st : Scripted.world * list call := ([Ok PNone; Ok PNone; Ok PNone], []) in
  days (main_loop (Some "db-1") 2 st).1.2
  = [("2025-11-04", skipped); ("2025-11-04", skipped)].
Proof. vm_compute. reflexivity. Qed.

Lemma list_payload_yields_no_vo2_fields_witness :
  update_properties Mem.hrv_balanced PNone Mem.vo2_listed
  = update_properties Mem.hrv_balanced PNone PNone
  ∧ create_properties "2025-11-04" Mem.hrv_balanced PNone Mem.vo2_listed
    = create_properties "2025-11-04" Mem.hrv_balanced PNone PNone.
Proof.
  apply (list_payload_yields_no_vo2_fields "2025-11-04" Mem.hrv_balanced PNone
           [PDict {[ "generic" :=
              PDict (<["vo2MaxValue" := PInt 52]> {[ "fitnessAge" := PInt 30 ]}) ]}]);
    reflexivity.
Defined.

Lemma first_element_without_value_yields_no_rhr_witness :
  update_properties PNone Mem.rhr_value_second PNone
  = update_properties PNone PNone PNone
  ∧ create_properties "2025-11-04" PNone Mem.rhr_value_second PNone
    = create_properties "2025-11-04" PNone PNone PNone.
Proof.
  apply (first_element_without_value_yields_no_rhr "2025-11-04" PNone
           Mem.rhr_value_second PNone ∅ [PDict {[ "value" := PInt 50 ]}]);
    vm_compute; reflexivity.
Defined.
